(** * Webhook relay (src/index.js): a shallow embedding and its properties

    The program is one Express module.  Its handlers are embedded as
    computations in a small state-and-exception monad: the state carries the
    remote Graph API (an arbitrary deterministic transition system), the list
    of outbound axios calls issued so far, the console, and the Express
    response object of the request being served.

    JavaScript strings are represented by Rocq strings holding their UTF-8
    bytes; concatenation, emptiness and equality of well-formed strings are
    preserved by that representation, and [Buffer.from(s)] is the list of the
    bytes of [s]. *)

From Stdlib Require Import ZArith NArith List String Ascii Bool Lia.
From Stdlib Require Import Strings.Byte DecimalString.
Import ListNotations.
Local Open Scope string_scope.
Local Open Scope Z_scope.
#[local] Set Warnings "-register-all".

(** ** JavaScript values *)

Module Js.

(** The values that [JSON.parse], the query parser and the axios response
    decoder produce, plus [undefined].  The program never computes with a
    number: it prints it, tests it for truthiness, compares it or passes it
    on.  A number is therefore held as the string that Number::toString
    gives it (its shortest round-trip form: "25", "1.5", "1e+21",
    "100000000000000020"; both zeros are "0").  Objects are association
    lists in insertion order, read by first match. *)
Inductive value : Type :=
| VUndef
| VNull
| VBool (b : bool)
| VNum (repr : string)
| VStr (s : string)
| VArr (items : list value)
| VObj (fields : list (string * value)).

(** What a [throw] carries.  [AxiosError] wraps the error object of a
    rejected axios promise (its [response.status] and [response.data] are read
    by the program). *)
Inductive thrown : Type :=
| TypeError (msg : string)
| ReferenceError (msg : string)
| RangeError (msg : string)
| Error (msg : string)
| AxiosError (err : value).

(** ToBoolean: [undefined], [null], [false], [0] and the empty string are
    falsy, everything else (every array and object included) is truthy. *)
Definition truthy (v : value) : bool :=
  match v with
  | VUndef | VNull => false
  | VBool b => b
  | VNum repr => negb ((repr =? "0")%string || (repr =? "NaN")%string)
  | VStr s => negb (s =? "")%string
  | VArr _ | VObj _ => true
  end.

(** [a || b] *)
Definition or_else (a b : value) : value := if truthy a then a else b.

Definition nullish (v : value) : bool :=
  match v with
  | VUndef | VNull => true
  | _ => false
  end.

Fixpoint lookup (k : string) (fields : list (string * value)) : option value :=
  match fields with
  | [] => None
  | (k', v) :: rest => if (k =? k')%string then Some v else lookup k rest
  end.

(** [v[k]] on a value that is neither [null] nor [undefined].  The property
    names the program reads (object, entry, messaging, standby, sender, id,
    message, text, data, paging, error, code, ...) are own properties of
    objects only: primitives and arrays answer [undefined]. *)
Definition own (v : value) (k : string) : value :=
  match v with
  | VObj fields => match lookup k fields with Some x => x | None => VUndef end
  | _ => VUndef
  end.

(** [v.k]: a TypeError on [null] and [undefined], worded as V8 words it. *)
Definition get (v : value) (k : string) : value + thrown :=
  if nullish v
  then inr (TypeError ("Cannot read properties of "
                       ++ match v with VNull => "null" | _ => "undefined" end
                       ++ " (reading '" ++ k ++ "')"))
  else inl (own v k).

(** The first property of [const { k, ... } = expr], where [expr] is the
    source text of the right-hand side: a TypeError when the value is [null]
    or [undefined] (the other properties are then read off the same
    object). *)
Definition destructure (expr : string) (v : value) (k : string) : value + thrown :=
  if nullish v
  then inr (TypeError ("Cannot destructure property '" ++ k ++ "' of '" ++ expr
                       ++ "' as it is "
                       ++ match v with VNull => "null" | _ => "undefined" end ++ "."))
  else inl (own v k).

(** [v?.k] *)
Definition opt (v : value) (k : string) : value :=
  if nullish v then VUndef else own v k.

(** Strict equality [a === b] where one side is a primitive (a string literal
    or an environment variable): a freshly parsed array or object is never
    identical to it. *)
Definition strict_eq (a b : value) : bool :=
  match a, b with
  | VUndef, VUndef => true
  | VNull, VNull => true
  | VBool x, VBool y => Bool.eqb x y
  | VNum x, VNum y => (x =? y)%string && negb (x =? "NaN")%string
  | VStr x, VStr y => (x =? y)%string
  | _, _ => false
  end.

(** ToString, as applied by template literals.  An object prints through
    [Object.prototype.toString] unless it has an own [toString] property: no
    parsed value is callable, so the conversion then finds no method that
    returns a primitive and throws.  An array prints through [join]: its
    items in order, [null] and [undefined] as the empty string, the first
    throw of an item being the throw of the whole. *)
Fixpoint to_string (v : value) : string + thrown :=
  match v with
  | VUndef => inl "undefined"
  | VNull => inl "null"
  | VBool true => inl "true"
  | VBool false => inl "false"
  | VNum repr => inl repr
  | VStr s => inl s
  | VArr items =>
      (fix join (l : list value) : string + thrown :=
         match l with
         | [] => inl EmptyString
         | x :: rest =>
             match (if nullish x then inl EmptyString else to_string x) with
             | inr e => inr e
             | inl first =>
                 match rest with
                 | [] => inl first
                 | _ :: _ =>
                     match join rest with
                     | inr e => inr e
                     | inl others => inl (first ++ "," ++ others)
                     end
                 end
             end
         end) items
  | VObj fields =>
      match lookup "toString" fields with
      | Some _ => inr (TypeError "Cannot convert object to primitive value")
      | None => inl "[object Object]"
      end
  end.

(** Length in bytes of the UTF-8 sequence introduced by a lead byte. *)
Definition utf8_width (c : ascii) : nat :=
  let n := N_of_ascii c in
  if (n <? 192)%N then 1%nat
  else if (n <? 224)%N then 2%nat
  else if (n <? 240)%N then 3%nat
  else 4%nat.

Fixpoint take_string (n : nat) (s : string) : string * string :=
  match n, s with
  | S n', String c rest => let (a, b) := take_string n' rest in (String c a, b)
  | _, _ => (""%string, s)
  end.

(** The string iterator: one string per code point. *)
Fixpoint code_points_fuel (fuel : nat) (s : string) : list value :=
  match fuel, s with
  | S fuel', String c rest =>
      let (tail, rest') := take_string (utf8_width c - 1) rest in
      VStr (String c tail) :: code_points_fuel fuel' rest'
  | _, _ => []
  end.

Definition code_points (s : string) : list value :=
  code_points_fuel (String.length s) s.

(** What [for (const x of expr)] walks through: the items of an array, the
    code points of a string, and a TypeError for anything else ([expr] is
    the source text of the iterated expression, which the message names). *)
Definition iterate (expr : string) (v : value) : list value + thrown :=
  match v with
  | VArr items => inl items
  | VStr s => inl (code_points s)
  | _ => inr (TypeError (expr ++ " is not iterable"))
  end.

Definition of_env (x : option string) : value :=
  match x with
  | Some s => VStr s
  | None => VUndef
  end.

End Js.

Import Js.

(** ** Node's [crypto] and [Buffer] *)

Module Crypto.

Local Open Scope list_scope.

Definition Buffer := list byte.

(** [Buffer.from(s)]: the UTF-8 bytes of the string. *)
Definition Buffer_from (s : string) : Buffer := list_byte_of_string s.

Definition byte_val (b : byte) : Z := Z.of_N (Byte.to_N b).

Definition byte_of_val (x : Z) : byte :=
  match Byte.of_N (Z.to_N (x mod 256)) with
  | Some b => b
  | None => x00
  end.

(** 32-bit words as integers, wrap-around written out. *)
Definition w32 (x : Z) : Z := x mod 2 ^ 32.
Definition add32 (x y : Z) : Z := w32 (x + y).
Definition rotr (n x : Z) : Z := w32 (Z.lor (Z.shiftr x n) (Z.shiftl x (32 - n))).
Definition ch (x y z : Z) : Z := Z.lxor (Z.land x y) (Z.land (Z.lxor x (2 ^ 32 - 1)) z).
Definition maj (x y z : Z) : Z := Z.lxor (Z.lxor (Z.land x y) (Z.land x z)) (Z.land y z).
Definition big_sigma0 (x : Z) : Z := Z.lxor (Z.lxor (rotr 2 x) (rotr 13 x)) (rotr 22 x).
Definition big_sigma1 (x : Z) : Z := Z.lxor (Z.lxor (rotr 6 x) (rotr 11 x)) (rotr 25 x).
Definition small_sigma0 (x : Z) : Z := Z.lxor (Z.lxor (rotr 7 x) (rotr 18 x)) (Z.shiftr x 3).
Definition small_sigma1 (x : Z) : Z := Z.lxor (Z.lxor (rotr 17 x) (rotr 19 x)) (Z.shiftr x 10).

(** The round constants are the first 32 fractional bits of the cube roots of
    the first 64 primes, the initial state those of the square roots of the
    first 8; they are computed rather than tabulated. *)
Definition is_prime (n : Z) : bool :=
  (1 <? n) && forallb (fun d => negb (n mod d =? 0)) (map Z.of_nat (seq 2 (Z.to_nat n - 2))).

Definition primes64 : list Z :=
  Eval vm_compute in filter is_prime (map Z.of_nat (seq 2 310)).

Fixpoint cube_root_bits (bits : nat) (n r : Z) : Z :=
  match bits with
  | O => r
  | S b =>
      let r' := r + 2 ^ Z.of_nat b in
      cube_root_bits b n (if r' * r' * r' <=? n then r' else r)
  end.

Definition round_constants : list Z :=
  Eval vm_compute in map (fun p => w32 (cube_root_bits 36 (p * 2 ^ 96) 0)) primes64.

Definition initial_state : list Z :=
  Eval vm_compute in map (fun p => w32 (Z.sqrt (p * 2 ^ 64))) (firstn 8 primes64).

Fixpoint be_bytes (n : nat) (x : Z) : list byte :=
  match n with
  | O => []
  | S k => byte_of_val (Z.shiftr x (8 * Z.of_nat k)) :: be_bytes k x
  end.

Definition be_word (bs : list byte) : Z :=
  fold_left (fun acc b => acc * 256 + byte_val b) bs 0.

(** Padding: a 1 bit, zeros up to 56 mod 64 bytes, then the bit length. *)
Definition pad (msg : Buffer) : Buffer :=
  let len := Z.of_nat (List.length msg) in
  let zeros := Z.to_nat ((55 - len) mod 64) in
  msg ++ [x80] ++ repeat x00 zeros ++ be_bytes 8 (8 * len).

Fixpoint chunks (fuel size : nat) (l : list byte) : list (list byte) :=
  match fuel, l with
  | S f, _ :: _ => firstn size l :: chunks f size (skipn size l)
  | _, _ => []
  end.

(** The message schedule, newest word first. *)
Fixpoint extend (n : nat) (rev_w : list Z) : list Z :=
  match n with
  | O => rev_w
  | S k =>
      let x i := nth i rev_w 0 in
      extend k (add32 (add32 (small_sigma1 (x 1%nat)) (x 6%nat))
                      (add32 (small_sigma0 (x 14%nat)) (x 15%nat)) :: rev_w)
  end.

Definition schedule (block : list byte) : list Z :=
  rev (extend 48 (rev (map be_word (chunks 16 4 block)))).

Definition round (st : list Z) (kw : Z * Z) : list Z :=
  match st with
  | [a; b; c; d; e; f; g; h] =>
      let t1 := add32 (add32 (add32 h (big_sigma1 e)) (add32 (ch e f g) (fst kw))) (snd kw) in
      let t2 := add32 (big_sigma0 a) (maj a b c) in
      [add32 t1 t2; a; b; c; add32 d t1; e; f; g]
  | _ => st
  end.

Definition compress (st : list Z) (block : list byte) : list Z :=
  map (fun p => add32 (fst p) (snd p))
      (combine st (fold_left round (combine round_constants (schedule block)) st)).

Definition sha256 (msg : Buffer) : Buffer :=
  let p := pad msg in
  flat_map (be_bytes 4) (fold_left compress (chunks (List.length p) 64 p) initial_state).

Definition xor_pad (c : Z) (key : Buffer) : Buffer :=
  map (fun b => byte_of_val (Z.lxor (byte_val b) c)) key.

(** HMAC (RFC 2104) over SHA-256, block size 64. *)
Definition hmac_sha256 (key data : Buffer) : Buffer :=
  let k0 := if (64 <? Z.of_nat (List.length key)) then sha256 key else key in
  let k := k0 ++ repeat x00 (64 - List.length k0) in
  sha256 (xor_pad 92 k ++ sha256 (xor_pad 54 k ++ data)).

Definition hex_digit (x : Z) : ascii :=
  ascii_of_N (Z.to_N (if x <? 10 then 48 + x else 87 + x)).

(** [digest("hex")]: two lower-case digits per byte. *)
Fixpoint hex (bs : Buffer) : string :=
  match bs with
  | [] => EmptyString
  | b :: rest =>
      String (hex_digit (byte_val b / 16)) (String (hex_digit (byte_val b mod 16)) (hex rest))
  end.

(** [crypto.timingSafeEqual(a, b)]: a RangeError unless the byte lengths
    agree, otherwise whether the contents agree. *)
Definition timingSafeEqual (a b : Buffer) : bool + thrown :=
  if (List.length a =? List.length b)%nat
  then inl (if list_eq_dec Byte.byte_eq_dec a b then true else false)
  else inr (RangeError "Input buffers must have the same byte length").

End Crypto.

(** ** The runtime: axios, the console, the Express response *)

Inductive method : Type := GET | POST.

(** One outbound call: [axios.get(url, config)] or
    [axios.post(url, data, config)]. *)
Record AxiosCall : Type := mkCall {
  call_method : method;
  call_url : string;
  call_data : value;
  call_config : value
}.

(** The promise of an axios call: fulfilled with a response, of which the
    program reads [data], or rejected with an error object. *)
Inductive AxiosResult : Type :=
| Fulfilled (data : value)
| Rejected (err : value).

(** A line of [console.log] or [console.error]. *)
Inductive LogEntry : Type :=
| LogText (line : string)
| LogValue (label : string) (v : value)
| LogThrown (label : string) (e : thrown).

(** What ends a response: [res.send(v)], [res.json(v)], or the status text
    written by [res.sendStatus]. *)
Inductive Body : Type :=
| Send (v : value)
| Json (v : value)
| StatusText (line : string).

Record Response : Type := mkResponse {
  status : Z;
  body : Body
}.

(** What the handlers read of [req]: the parsed query, the headers under their
    lower-case names, the raw body that [rawBodySaver] kept when the JSON
    parser read one, and the parsed body. *)
Record Request : Type := mkRequest {
  req_query : value;
  req_headers : list (string * string);
  req_rawBody : option Crypto.Buffer;
  req_body : value
}.

(** [process.env] as read at start-up. *)
Record Env : Type := mkEnv {
  PAGE_ACCESS_TOKEN : option string;
  VERIFY_TOKEN : option string;
  APP_SECRET : option string
}.

(** [req.headers[name]] *)
Fixpoint header (name : string) (hs : list (string * string)) : option string :=
  match hs with
  | [] => None
  | (k, v) :: rest => if (name =? k)%string then Some v else header name rest
  end.

(** [obj[k] = v] on the field list of an object: in place when the key
    exists, appended otherwise. *)
Fixpoint assign (k : string) (v : value) (fields : list (string * value))
  : list (string * value) :=
  match fields with
  | [] => [(k, v)]
  | (k', v') :: rest =>
      if (k =? k')%string then (k, v) :: rest else (k', v') :: assign k v rest
  end.

(** Reading a property of a caught error: only the error object of a rejected
    axios call has the properties the program asks for. *)
Definition thrown_opt (e : thrown) (k : string) : value :=
  match e with
  | AxiosError err => opt err k
  | _ => VUndef
  end.

(** The reason phrase that [res.sendStatus] writes as the body. *)
Definition status_message (code : Z) : string :=
  if code =? 200 then "OK"
  else if code =? 400 then "Bad Request"
  else if code =? 403 then "Forbidden"
  else NilZero.string_of_int (Z.to_int code).

Section Runtime.

Context {World : Type}.

(** The state a handler runs in. *)
Record Sys : Type := mkSys {
  world : World;
  sent : list AxiosCall;
  console : list LogEntry;
  statusCode : Z;
  response : option Response
}.

(** A computation may update the state and then return or throw; what it did
    before throwing stays done. *)
Definition M (A : Type) : Type := Sys -> (A + thrown) * Sys.

Definition ret {A} (a : A) : M A := fun s => (inl a, s).

Definition throw {A} (e : thrown) : M A := fun s => (inr e, s).

Definition bind {A B} (c : M A) (k : A -> M B) : M B :=
  fun s =>
    match c s with
    | (inl a, s') => k a s'
    | (inr e, s') => (inr e, s')
    end.

Definition try_catch {A} (c : M A) (handler : thrown -> M A) : M A :=
  fun s =>
    match c s with
    | (inl a, s') => (inl a, s')
    | (inr e, s') => handler e s'
    end.

Definition lift {A} (r : A + thrown) : M A := fun s => (r, s).

Definition console_log (entry : LogEntry) : M unit :=
  fun s => (inl tt, mkSys (world s) (sent s) (console s ++ [entry]) (statusCode s) (response s)).

(** [res.status(code)] *)
Definition res_status (code : Z) : M unit :=
  fun s => (inl tt, mkSys (world s) (sent s) (console s) code (response s)).

Definition res_end (b : Body) : M unit :=
  fun s =>
    match response s with
    | Some _ => (inr (Error "Cannot set headers after they are sent to the client"), s)
    | None =>
        (inl tt, mkSys (world s) (sent s) (console s) (statusCode s)
                       (Some (mkResponse (statusCode s) b)))
    end.

(** [res.send(v)], [res.json(v)], [res.sendStatus(code)] *)
Definition res_send (v : value) : M unit := res_end (Send v).
Definition res_json (v : value) : M unit := res_end (Json v).
Definition res_sendStatus (code : Z) : M unit :=
  bind (res_status code) (fun _ => res_end (StatusText (status_message code))).

Fixpoint for_of {A} (items : list A) (body : A -> M unit) : M unit :=
  match items with
  | [] => ret tt
  | x :: rest => bind (body x) (fun _ => for_of rest body)
  end.

(** The state a request starts in. *)
Definition fresh (w : World) : Sys := mkSys w [] [] 200 None.

End Runtime.

Arguments Sys : clear implicits.
Arguments M : clear implicits.

Declare Scope js_scope.
Delimit Scope js_scope with js.
Notation "x <- c ;; k" := (bind c (fun x => k))
  (at level 61, c at next level, right associativity) : js_scope.
Notation "c ;; k" := (bind c (fun _ => k))
  (at level 61, right associativity) : js_scope.
Local Open Scope js_scope.

(** ** The program *)

Section Program.

Context {World : Type}.

(** The remote Graph API: each call is answered and moves the remote side to
    its next state. *)
Variable axios : World -> AxiosCall -> AxiosResult * World.

Variable env : Env.

(** Awaiting an axios call: the call is recorded, a rejection is thrown. *)
Definition axios_await (call : AxiosCall) : M World value :=
  fun s =>
    let (r, w) := axios (world s) call in
    let s' := mkSys w (sent s ++ [call]) (console s) (statusCode s) (response s) in
    match r with
    | Fulfilled data => (inl data, s')
    | Rejected err => (inr (AxiosError err), s')
    end.

(** [${PAGE_ACCESS_TOKEN}]: the token, or "undefined" when it is not set. *)
Definition token : string :=
  match PAGE_ACCESS_TOKEN env with
  | Some t => t
  | None => "undefined"
  end.

Definition me_url : string :=
  "https://graph.facebook.com/v21.0/me?fields=id&access_token=" ++ token.

(** The template literal of the second GET: it throws when [PAGE_ID] has no
    string form. *)
Definition page_url (PAGE_ID : value) : string + thrown :=
  match to_string PAGE_ID with
  | inl id =>
      inl ("https://graph.facebook.com/v21.0/" ++ id
           ++ "?fields=connected_instagram_account,instagram_business_account&access_token="
           ++ token)
  | inr e => inr e
  end.

Definition resolution_error : thrown :=
  Error "Could not resolve IG Business User ID. Ensure IG account is connected to the FB Page and permissions are granted.".

(** [getIGUserId()] *)
Definition getIGUserId : M World value :=
  me <- axios_await (mkCall GET me_url VUndef VUndef) ;;
  PAGE_ID <- lift (get me "id") ;;
  url <- lift (page_url PAGE_ID) ;;
  pageResp <- axios_await (mkCall GET url VUndef VUndef) ;;
  let igUserId :=
    or_else (opt (opt pageResp "connected_instagram_account") "id")
            (opt (opt pageResp "instagram_business_account") "id") in
  if truthy igUserId then ret igUserId else throw resolution_error.

(** [graphGet(url, params)] *)
Definition graphGet (url : string) (params : list (string * value)) : M World value :=
  axios_await
    (mkCall GET url VUndef
       (VObj [("params", VObj (assign "access_token" (of_env (PAGE_ACCESS_TOKEN env)) params))])).

(** The bindings of the module: its imports, constants and functions.  A
    name outside this list and outside the globals of Node has no binding. *)
Definition module_bindings : list string :=
  ["express"; "axios"; "crypto"; "dotenv"; "app"; "rawBodySaver";
   "PAGE_ACCESS_TOKEN"; "VERIFY_TOKEN"; "APP_SECRET"; "PORT";
   "getIGUserId"; "graphGet"; "verifyMetaSignature"; "tryReplyInstagram"].

(** Evaluating a call [name(...)] to a name that the module does not bind:
    the reference itself throws, before any argument is used. *)
Definition call_unbound (name : string) : M World value :=
  if existsb (String.eqb name) module_bindings
  then ret VUndef
  else throw (ReferenceError (name ++ " is not defined")).

(** The template literal of the conversations GET: it throws when the id has
    no string form. *)
Definition conversations_url (igUserId : value) : string + thrown :=
  match to_string igUserId with
  | inl id => inl ("https://graph.facebook.com/v21.0/" ++ id ++ "/conversations")
  | inr e => inr e
  end.

Definition conversation_fields : string :=
  "id,updated_time,participants.limit(50){id,username},link".

(** The body of the [try] in the conversation lister. *)
Definition list_conversations (req : Request) : M World unit :=
  igUserId <- getIGUserId ;;
  limit0 <- lift (destructure "req.query" (req_query req) "limit") ;;
  let before := own (req_query req) "before" in
  let after := own (req_query req) "after" in
  let limit := match limit0 with VUndef => VNum "25" | _ => limit0 end in
  let params := [("limit", limit)] in
  let params := if truthy before then assign "before" before params else params in
  let params := if truthy after then assign "after" after params else params in
  url <- lift (conversations_url igUserId) ;;
  data <- graphGet url (assign "fields" (VStr conversation_fields) params) ;;
  rows <- lift (get data "data") ;;
  paging <- lift (get data "paging") ;;
  res_json (VObj [("success", VBool true);
                  ("data", or_else rows (VArr []));
                  ("paging", or_else paging VNull)]).

(** [app.get("/ig/conversations", ...)]: in the [catch], [res.status(400)]
    runs first, then the argument of [.json(...)] is evaluated. *)
Definition get_ig_conversations (req : Request) : M World unit :=
  try_catch
    (list_conversations req)
    (fun err =>
       res_status 400 ;;
       e <- call_unbound "stringifyGraphError" ;;
       res_json (VObj [("success", VBool false); ("error", e)])).

(** [app.get("/webhook", ...)] *)
Definition get_webhook (req : Request) : M World unit :=
  console_log (LogText "webhook working") ;;
  mode <- lift (get (req_query req) "hub.mode") ;;
  tok <- lift (get (req_query req) "hub.verify_token") ;;
  challenge <- lift (get (req_query req) "hub.challenge") ;;
  if strict_eq mode (VStr "subscribe") && strict_eq tok (of_env (VERIFY_TOKEN env))
  then res_status 200 ;; res_send challenge
  else res_sendStatus 403.

(** What [hmac.update(undefined)] throws, in Node's words. *)
Definition update_type_error : thrown :=
  TypeError ("The " ++ String (ascii_of_nat 34) "data" ++ String (ascii_of_nat 34)
             " argument must be of type string or an instance of Buffer, TypedArray, or DataView. Received undefined").

(** What a request over [rawBody] must carry as its signature header. *)
Definition expected_signature (secret : string) (rawBody : Crypto.Buffer) : string :=
  "sha256=" ++ Crypto.hex (Crypto.hmac_sha256 (Crypto.Buffer_from secret) rawBody).

(** [!x] for a string that may be undefined *)
Definition missing (x : option string) : bool := negb (truthy (of_env x)).

(** The body of the [try] in [verifyMetaSignature], over the three things it
    reads: the raw body, the signature header and the secret. *)
Definition signature_check (rawBody : option Crypto.Buffer) (signature secret : option string)
  : bool + thrown :=
  if missing signature || missing secret then inl true
  else
    match rawBody, signature, secret with
    | Some raw, Some sig, Some key =>
        let expected := expected_signature key raw in
        Crypto.timingSafeEqual (Crypto.Buffer_from sig) (Crypto.Buffer_from expected)
    | _, _, _ => inr update_type_error
    end.

Definition verify (rawBody : option Crypto.Buffer) (signature secret : option string) : bool :=
  match signature_check rawBody signature secret with
  | inl verdict => verdict
  | inr _ => false
  end.

(** [verifyMetaSignature(req)] *)
Definition verifyMetaSignature (req : Request) : bool :=
  verify (req_rawBody req) (header "x-hub-signature-256" (req_headers req)) (APP_SECRET env).

Definition send_url : string := "https://graph.facebook.com/v21.0/me/messages".

Definition reply_payload (igPsid text : value) : value :=
  VObj [("messaging_product", VStr "instagram");
        ("recipient", VObj [("id", igPsid)]);
        ("message", VObj [("text", text)])].

Definition send_config : value :=
  VObj [("headers", VObj [("Authorization", VStr ("Bearer " ++ token))])].

Definition send_call (igPsid text : value) : AxiosCall :=
  mkCall POST send_url (reply_payload igPsid text) send_config.

Definition failure_result (error : thrown) : value :=
  let errData := or_else (opt (thrown_opt error "response") "data") (VObj []) in
  VObj [("ok", VBool false);
        ("error",
         VObj [("status", opt (thrown_opt error "response") "status");
               ("code", opt (opt errData "error") "code");
               ("subcode", opt (opt errData "error") "error_subcode");
               ("message", opt (opt errData "error") "message");
               ("type", opt (opt errData "error") "type")])].

(** [tryReplyInstagram(igPsid, text)] *)
Definition tryReplyInstagram (igPsid text : value) : M World value :=
  try_catch
    (data <- axios_await (send_call igPsid text) ;;
     ret (VObj [("ok", VBool true); ("data", data)]))
    (fun error => ret (failure_result error)).

(** The double quote character of the reply template. *)
Definition dquote : string := String (ascii_of_nat 34) EmptyString.

(** The template literal of the reply: it throws when the message text has
    no string form. *)
Definition replyText (messageText : value) : string + thrown :=
  match to_string (or_else messageText (VStr "(no text)")) with
  | inl said => inl ("Thanks for messaging us! You said: " ++ dquote ++ said ++ dquote)
  | inr e => inr e
  end.

(** The body of the inner loop of the webhook receiver. *)
Definition handle_event (event : value) : M World unit :=
  let senderId := opt (opt event "sender") "id" in
  let messageText := opt (opt event "message") "text" in
  let isMessage := truthy (opt event "message") in
  if isMessage && truthy senderId
  then
    text <- lift (replyText messageText) ;;
    result <- tryReplyInstagram senderId (VStr text) ;;
    console_log (LogValue "Reply attempt:" result)
  else ret tt.

(** [entry.messaging || entry.standby || []] *)
Definition changes (entry : value) : M World value :=
  messaging <- lift (get entry "messaging") ;;
  if truthy messaging then ret messaging
  else
    standby <- lift (get entry "standby") ;;
    ret (or_else standby (VArr [])).

Definition handle_entry (entry : value) : M World unit :=
  selected <- changes entry ;;
  events <- lift (iterate "changes" selected) ;;
  for_of events handle_event.

Definition process_entries (body : value) : M World unit :=
  entries <- lift (get body "entry") ;;
  if truthy entries
  then items <- lift (iterate "body.entry" entries) ;; for_of items handle_entry
  else ret tt.

(** [console.error("Webhook processing error:", err?.response?.data || err)] *)
Definition log_processing_error (err : thrown) : M World unit :=
  let data := opt (thrown_opt err "response") "data" in
  if truthy data
  then console_log (LogValue "Webhook processing error:" data)
  else console_log (LogThrown "Webhook processing error:" err).

(** [app.post("/webhook", ...)] *)
Definition post_webhook (req : Request) : M World unit :=
  console_log (LogText "assdas") ;;
  if negb (verifyMetaSignature req) then res_sendStatus 403
  else
    let body := req_body req in
    console_log (LogValue "incoming webhook" body) ;;
    object <- lift (get body "object") ;;
    (if negb (strict_eq object (VStr "instagram")) then ret tt else ret tt) ;;
    try_catch (process_entries body) log_processing_error ;;
    res_sendStatus 200.

(** [app.get("/health", ...)] *)
Definition get_health (req : Request) : M World unit :=
  res_json (VObj [("ok", VBool true)]).

End Program.

(** A remote side that answers from a script, one entry per call, and rejects
    once the script is exhausted. *)
Definition scripted (w : list AxiosResult) (call : AxiosCall)
  : AxiosResult * list AxiosResult :=
  match w with
  | r :: rest => (r, rest)
  | [] => (Rejected VUndef, [])
  end.

(** What a client and the remote side can observe of a run: everything but
    the console. *)
Definition observable {World} (s : Sys World)
  : World * list AxiosCall * Z * option Response :=
  (world s, sent s, statusCode s, response s).

(** A computation that leaves the Express response object alone. *)
Definition keeps_response {World A} (c : M World A) : Prop :=
  forall s, statusCode (snd (c s)) = statusCode s /\ response (snd (c s)) = response s.

(** Two states that agree on everything but the console. *)
Definition same_obs {World} (s1 s2 : Sys World) : Prop := observable s1 = observable s2.

(** A computation whose result and observable effects do not depend on the
    console. *)
Definition blind {World A} (c : M World A) : Prop :=
  forall s1 s2, same_obs s1 s2 ->
                fst (c s1) = fst (c s2) /\ same_obs (snd (c s1)) (snd (c s2)).

(** ** Reference functions for the webhook receiver

    Pure functions that the receiver is compared with: what it sends, read
    off the payload alone. *)

(** [rawBodySaver(req, res, buf)]: the [verify] hook of the JSON parser. *)
Definition rawBodySaver (req : Request) (buf : Crypto.Buffer) : Request :=
  mkRequest (req_query req) (req_headers req) (Some buf) (req_body req).

(** The test [isMessage && senderId] of the inner loop. *)
Definition replyable (event : value) : bool :=
  truthy (opt event "message") && truthy (opt (opt event "sender") "id").

(** What the loop body does with one event: nothing, one send, or a throw
    of the reply template before anything is sent. *)
Inductive outcome : Type :=
| Ignored
| Answered (call : AxiosCall)
| Failed (e : thrown).

Definition event_outcome (env : Env) (event : value) : outcome :=
  if replyable event
  then match replyText (opt (opt event "message") "text") with
       | inl text => Answered (send_call env (opt (opt event "sender") "id") (VStr text))
       | inr e => Failed e
       end
  else Ignored.

(** The calls that answer one event: one for an answered event, none
    otherwise. *)
Definition answers (env : Env) (event : value) : list AxiosCall :=
  match event_outcome env event with
  | Answered call => [call]
  | _ => []
  end.

(** An event whose handling does not throw. *)
Definition printable (env : Env) (event : value) : bool :=
  match event_outcome env event with
  | Failed _ => false
  | _ => true
  end.

(** The calls for a list of events, up to the first event that fails, and
    whether the end of the list was reached. *)
Fixpoint event_calls (env : Env) (events : list value) : list AxiosCall * bool :=
  match events with
  | [] => ([], true)
  | event :: rest =>
      match event_outcome env event with
      | Ignored => event_calls env rest
      | Answered call =>
          let (calls, finished) := event_calls env rest in (call :: calls, finished)
      | Failed _ => ([], false)
      end
  end.

(** The value of [entry.messaging || entry.standby || []]. *)
Definition selected (entry : value) : value :=
  if truthy (own entry "messaging") then own entry "messaging"
  else or_else (own entry "standby") (VArr []).

(** An entry whose events the loop reaches: it supports property access and
    its selected list can be iterated. *)
Definition well_formed_entry (entry : value) : bool :=
  negb (nullish entry)
  && match iterate "changes" (selected entry) with inl _ => true | inr _ => false end.

Definition events_of (entry : value) : list value :=
  match iterate "changes" (selected entry) with
  | inl events => events
  | inr _ => []
  end.

(** The calls for one entry and whether its processing returned. *)
Definition entry_calls (env : Env) (entry : value) : list AxiosCall * bool :=
  if well_formed_entry entry then event_calls env (events_of entry) else ([], false).

(** An entry that is processed to its end. *)
Definition completes (env : Env) (entry : value) : bool := snd (entry_calls env entry).

(** The calls for a list of entries: entry by entry, up to the first throw. *)
Fixpoint processed_calls (env : Env) (entries : list value) : list AxiosCall :=
  match entries with
  | [] => []
  | entry :: rest =>
      if completes env entry
      then (fst (entry_calls env entry) ++ processed_calls env rest)%list
      else fst (entry_calls env entry)
  end.

(** What [body.entry] gives the outer loop to walk through. *)
Definition entries_of (payload : value) : list value :=
  if truthy (own payload "entry")
  then match iterate "body.entry" (own payload "entry") with
       | inl items => items
       | inr _ => []
       end
  else [].

Definition webhook_calls (env : Env) (payload : value) : list AxiosCall :=
  processed_calls env (entries_of payload).

(** ** Sample values for concrete runs *)

Definition sample_env : Env := mkEnv (Some "TOKEN") (Some "vt") None.

(** A text message, a read receipt, a message without text, and a message
    whose text has no string form. *)
Definition sample_hello : value :=
  VObj [("sender", VObj [("id", VStr "U1")]); ("message", VObj [("text", VStr "hi")])].

Definition sample_receipt : value :=
  VObj [("sender", VObj [("id", VStr "U2")]); ("read", VObj [])].

Definition sample_photo : value :=
  VObj [("sender", VObj [("id", VStr "U3")]); ("message", VObj [("attachments", VArr [])])].

Definition sample_unprintable : value :=
  VObj [("sender", VObj [("id", VStr "U4")]);
        ("message", VObj [("text", VObj [("toString", VNum "1")])])].

(** * Properties *)

(** ** The model of [crypto] against published digests *)

Example sha256_abc :
  Crypto.hex (Crypto.sha256 (Crypto.Buffer_from "abc"))
  = "ba7816bf8f01cfea414140de5dae2223b00361a396177a9cb410ff61f20015ad"%string.
Proof. vm_compute. reflexivity. Qed.

Example hmac_sha256_rfc4231_case2 :
  Crypto.hex (Crypto.hmac_sha256 (Crypto.Buffer_from "Jefe")
                                 (Crypto.Buffer_from "what do ya want for nothing?"))
  = "5bdcc146bf60754e6a042426089575c75a003f089d2739839dec58b964ec3843"%string.
Proof. vm_compute. reflexivity. Qed.

(** ** Signature verifier *)

Section Verifier.

Import Crypto.

Lemma Buffer_from_inj (a b : string) : Buffer_from a = Buffer_from b -> a = b.
Proof.
  unfold Buffer_from. intros H.
  rewrite <- (string_of_list_byte_of_string a), <- (string_of_list_byte_of_string b).
  now rewrite H.
Qed.

Lemma timingSafeEqual_refl (a : Buffer) : timingSafeEqual a a = inl true.
Proof.
  unfold timingSafeEqual. rewrite Nat.eqb_refl.
  destruct (list_eq_dec Byte.byte_eq_dec a a); [reflexivity | contradiction].
Qed.

Lemma timingSafeEqual_true (a b : Buffer) : timingSafeEqual a b = inl true -> a = b.
Proof.
  unfold timingSafeEqual. destruct (List.length a =? List.length b)%nat; [| discriminate].
  destruct (list_eq_dec Byte.byte_eq_dec a b); [trivial | discriminate].
Qed.

Lemma missing_false (x : option string) :
  missing x = false <-> exists s, x = Some s /\ s <> ""%string.
Proof.
  unfold missing. destruct x as [s |]; simpl.
  - destruct (String.eqb_spec s ""); simpl; split; intros H; try discriminate.
    + destruct H as (s' & E & N). inversion E; subst. contradiction.
    + exists s. split; trivial.
    + reflexivity.
  - split; [discriminate | intros (s & E & _); discriminate].
Qed.


Lemma Buffer_from_length (a : string) : List.length (Buffer_from a) = String.length a.
Proof.
  unfold Buffer_from, list_byte_of_string. rewrite length_map.
  induction a as [| c a IH]; simpl; congruence.
Qed.

Lemma round_length st kw : List.length st = 8%nat -> List.length (round st kw) = 8%nat.
Proof.
  intros H. do 9 (destruct st as [| ? st]; try discriminate H). reflexivity.
Qed.

Lemma compress_length st block :
  List.length st = 8%nat -> List.length (compress st block) = 8%nat.
Proof.
  intros H. unfold compress. rewrite length_map, length_combine.
  assert (forall kws acc, List.length acc = 8%nat ->
                          List.length (fold_left round kws acc) = 8%nat) as F.
  { induction kws as [| kw kws IH]; intros acc Hacc; simpl; [exact Hacc |].
    apply IH, round_length, Hacc. }
  rewrite F by exact H. rewrite H. reflexivity.
Qed.

Lemma sha256_length msg : List.length (sha256 msg) = 32%nat.
Proof.
  unfold sha256.
  assert (forall blocks st, List.length st = 8%nat ->
                            List.length (fold_left compress blocks st) = 8%nat) as F.
  { induction blocks as [| b blocks IH]; intros st Hst; simpl; [exact Hst |].
    apply IH, compress_length, Hst. }
  specialize (F (chunks (List.length (pad msg)) 64 (pad msg)) initial_state eq_refl).
  destruct (fold_left compress _ initial_state) as [| ? st]; try discriminate F.
  do 8 (destruct st as [| ? st]; try discriminate F). reflexivity.
Qed.

Lemma hex_length bs : String.length (hex bs) = (2 * List.length bs)%nat.
Proof. induction bs as [| b bs IH]; simpl; [reflexivity | rewrite IH; lia]. Qed.

(** The expected signature is always 71 bytes long. *)
Lemma expected_signature_length secret raw :
  String.length (expected_signature secret raw) = 71%nat.
Proof.
  unfold expected_signature, hmac_sha256. cbn [append String.length].
  rewrite hex_length, sha256_length. reflexivity.
Qed.

(** C5, as amended: with a non-empty secret and a non-empty signature header,
    the verifier answers false for every header that differs from the
    expected signature (whatever its length or bytes, and also when no raw
    body was captured); a header of another byte length makes the comparison
    throw, and an exception raised by the check is never propagated: it
    yields false. *)
Theorem verify_rejects_tampered :
  (forall rawBody signature secret,
      signature <> ""%string -> secret <> ""%string ->
      (forall raw, rawBody = Some raw -> signature <> expected_signature secret raw) ->
      verify rawBody (Some signature) (Some secret) = false)
  /\ (forall raw signature secret,
         signature <> ""%string -> secret <> ""%string ->
         String.length signature <> 71%nat ->
         signature_check (Some raw) (Some signature) (Some secret)
         = inr (RangeError "Input buffers must have the same byte length"))
  /\ (forall rawBody signature secret e,
         signature_check rawBody signature secret = inr e ->
         verify rawBody signature secret = false).
Proof.
  split; [| split].
  - intros rawBody signature secret Hsig Hkey Hne.
    unfold verify, signature_check.
    assert (missing (Some signature) = false) as ->
      by (apply missing_false; eauto).
    assert (missing (Some secret) = false) as ->
      by (apply missing_false; eauto).
    simpl. destruct rawBody as [raw |]; [| reflexivity].
    destruct (timingSafeEqual _ _) as [[|] |] eqn:E; try reflexivity.
    apply timingSafeEqual_true, Buffer_from_inj in E.
    exfalso. now apply (Hne raw).
  - intros raw signature secret Hsig Hkey Hlen.
    unfold signature_check.
    assert (missing (Some signature) = false) as ->
      by (apply missing_false; eauto).
    assert (missing (Some secret) = false) as ->
      by (apply missing_false; eauto).
    simpl. unfold timingSafeEqual.
    rewrite !Buffer_from_length, expected_signature_length.
    destruct (Nat.eqb_spec (String.length signature) 71); [contradiction | reflexivity].
  - intros rawBody signature secret e H. unfold verify. now rewrite H.
Qed.

(** C5 as stated fails on an empty header: a secret is configured, the header
    is sent with an empty value, which is not the expected signature and has
    another byte length, and the verifier answers true. *)
Lemma verify_accepts_empty_header :
  let B := Buffer_from "{}" in
  let S := "s3cret"%string in
  ""%string <> expected_signature S B
  /\ List.length (Buffer_from "") <> List.length (Buffer_from (expected_signature S B))
  /\ verify (Some B) (Some ""%string) (Some S) = true.
Proof.
  cbv zeta. split; [| split].
  - unfold expected_signature. discriminate.
  - vm_compute. discriminate.
  - reflexivity.
Qed.

Lemma verify_rejects_tampered_witness :
  verify (Some (Buffer_from "{}")) (Some "sha256=00"%string) (Some "s3cret"%string) = false
  /\ verify None (Some "x"%string) (Some "s3cret"%string) = false.
Proof.
  split.
  - apply (proj1 verify_rejects_tampered); try discriminate.
    intros raw E. inversion E; subst. vm_compute. discriminate.
  - apply (proj2 (proj2 verify_rejects_tampered) None (Some "x"%string)
             (Some "s3cret"%string) update_type_error).
    reflexivity.
Defined.

End Verifier.

(** ** Webhook handshake *)

Section Handshake.

Context {World : Type}.
Variable env : Env.

(** C6: on GET /webhook, when hub.mode is the literal "subscribe" and
    hub.verify_token equals the configured VERIFY_TOKEN, the response is 200
    with the hub.challenge value as its body, unmodified; in every other case
    the response is 403. *)
Theorem handshake_outcome (q : list (string * value)) (hs : list (string * string))
    (raw : option Crypto.Buffer) (b : value) (w : World) :
  let req := mkRequest (VObj q) hs raw b in
  let mode := own (VObj q) "hub.mode" in
  let tok := own (VObj q) "hub.verify_token" in
  let challenge := own (VObj q) "hub.challenge" in
  let final := snd (get_webhook env req (fresh w)) in
  (mode = VStr "subscribe" -> tok = of_env (VERIFY_TOKEN env) ->
   response final = Some (mkResponse 200 (Send challenge)))
  /\ (~ (mode = VStr "subscribe" /\ tok = of_env (VERIFY_TOKEN env)) ->
      response final = Some (mkResponse 403 (StatusText "Forbidden"))).
Proof.
  cbv zeta. unfold get_webhook. simpl.
  split.
  - intros Hm Ht. cbn. rewrite Hm, Ht. 
    assert (strict_eq (of_env (VERIFY_TOKEN env)) (of_env (VERIFY_TOKEN env)) = true) as ->.
    { destruct (VERIFY_TOKEN env); simpl; [apply String.eqb_refl | reflexivity]. }
    reflexivity.
  - intros Hn. cbn.
    destruct (strict_eq _ (VStr "subscribe") && strict_eq _ (of_env (VERIFY_TOKEN env)))
      eqn:E; [| reflexivity].
    exfalso. apply Hn. apply andb_true_iff in E. destruct E as [E1 E2].
    split.
    + destruct (match lookup "hub.mode" q with Some x => x | None => VUndef end);
        simpl in E1; try discriminate.
      apply String.eqb_eq in E1. now subst.
    + destruct (VERIFY_TOKEN env); simpl in *;
        destruct (match lookup "hub.verify_token" q with Some x => x | None => VUndef end);
        simpl in E2; try discriminate; trivial.
      apply String.eqb_eq in E2. now subst.
Qed.

End Handshake.

Lemma handshake_outcome_witness :
  let env := mkEnv (Some "TOKEN") (Some "vt") None in
  response (snd (get_webhook env
                   (mkRequest (VObj [("hub.mode", VStr "subscribe");
                                     ("hub.verify_token", VStr "vt");
                                     ("hub.challenge", VStr "xyz123")]) [] None VUndef)
                   (fresh tt)))
  = Some (mkResponse 200 (Send (VStr "xyz123")))
  /\ response (snd (get_webhook env
                      (mkRequest (VObj [("hub.mode", VStr "subscribe");
                                        ("hub.verify_token", VStr "other");
                                        ("hub.challenge", VStr "xyz123")]) [] None VUndef)
                      (fresh tt)))
     = Some (mkResponse 403 (StatusText "Forbidden")).
Proof.
  cbv zeta. split.
  - apply (proj1 (handshake_outcome (mkEnv (Some "TOKEN") (Some "vt") None)
                    [("hub.mode", VStr "subscribe"); ("hub.verify_token", VStr "vt");
                     ("hub.challenge", VStr "xyz123")] [] None VUndef tt));
      reflexivity.
  - apply (proj2 (handshake_outcome (mkEnv (Some "TOKEN") (Some "vt") None)
                    [("hub.mode", VStr "subscribe"); ("hub.verify_token", VStr "other");
                     ("hub.challenge", VStr "xyz123")] [] None VUndef tt)).
    simpl. intros [_ H]. discriminate.
Defined.

(** ** Frame and insensitivity lemmas for the monad *)

Section Frames.

Context {World : Type}.
Variable axios : World -> AxiosCall -> AxiosResult * World.
Variable env : Env.

Lemma keeps_ret {A} (a : A) : keeps_response (ret (World:=World) a).
Proof. intros s. now split. Qed.

Lemma keeps_lift {A} (r : A + thrown) : keeps_response (lift (World:=World) r).
Proof. intros s. now split. Qed.

Lemma keeps_console_log entry : keeps_response (console_log (World:=World) entry).
Proof. intros s. now split. Qed.

Lemma keeps_bind {A B} (c : M World A) (k : A -> M World B) :
  keeps_response c -> (forall a, keeps_response (k a)) -> keeps_response (bind c k).
Proof.
  intros Hc Hk s. unfold bind. specialize (Hc s).
  destruct (c s) as [[a | e] s']; simpl in *; [| exact Hc].
  destruct (Hk a s') as [H1 H2]. destruct Hc as [H3 H4]. split; congruence.
Qed.

Lemma keeps_try_catch {A} (c : M World A) (h : thrown -> M World A) :
  keeps_response c -> (forall e, keeps_response (h e)) -> keeps_response (try_catch c h).
Proof.
  intros Hc Hh s. unfold try_catch. specialize (Hc s).
  destruct (c s) as [[a | e] s']; simpl in *; [exact Hc |].
  destruct (Hh e s') as [H1 H2]. destruct Hc as [H3 H4]. split; congruence.
Qed.

Lemma keeps_axios_await call : keeps_response (axios_await axios call).
Proof.
  intros s. unfold axios_await.
  destruct (axios (world s) call) as [[data | err] w]; now split.
Qed.

Lemma keeps_for_of {A} (items : list A) (body : A -> M World unit) :
  (forall x, keeps_response (body x)) -> keeps_response (for_of items body).
Proof.
  intros Hb. induction items as [| x rest IH]; simpl.
  - apply keeps_ret.
  - apply keeps_bind; [apply Hb | intros _; exact IH].
Qed.

Create HintDb frame.
#[local] Hint Resolve keeps_ret keeps_lift keeps_console_log keeps_axios_await : frame.

Ltac frame :=
  repeat first
    [ apply keeps_bind; [| intros ?]
    | apply keeps_try_catch; [| intros ?]
    | apply keeps_for_of; intros ?
    | solve [auto with frame]
    | match goal with |- keeps_response (if ?b then _ else _) => destruct b end ].

Lemma keeps_tryReplyInstagram igPsid text :
  keeps_response (tryReplyInstagram axios env igPsid text).
Proof. unfold tryReplyInstagram. frame. Qed.

Lemma keeps_handle_event event : keeps_response (handle_event axios env event).
Proof. unfold handle_event. frame. Qed.

Lemma keeps_process_entries payload : keeps_response (process_entries axios env payload).
Proof.
  unfold process_entries, handle_entry, changes. frame.
  all: apply keeps_handle_event.
Qed.

Lemma keeps_log_processing_error e :
  keeps_response (log_processing_error (World:=World) e).
Proof. unfold log_processing_error. frame. Qed.

(** Guarded processing always returns normally. *)
Lemma guarded_processing_returns payload s :
  fst (try_catch (process_entries axios env payload) log_processing_error s) = inl tt.
Proof.
  unfold try_catch. destruct (process_entries axios env payload s) as [[[] | e] s'].
  - reflexivity.
  - unfold log_processing_error. destruct (truthy _); reflexivity.
Qed.

Lemma same_obs_inv (s1 s2 : Sys World) :
  same_obs s1 s2 ->
  world s1 = world s2 /\ sent s1 = sent s2
  /\ statusCode s1 = statusCode s2 /\ response s1 = response s2.
Proof. unfold same_obs, observable. intros H. inversion H. auto. Qed.

Lemma blind_ret {A} (a : A) : blind (ret (World:=World) a).
Proof. intros s1 s2 H. now split. Qed.

Lemma blind_lift {A} (r : A + thrown) : blind (lift (World:=World) r).
Proof. intros s1 s2 H. now split. Qed.

Lemma blind_console_log entry : blind (console_log (World:=World) entry).
Proof.
  intros s1 s2 H. apply same_obs_inv in H. destruct H as (H1 & H2 & H3 & H4).
  split; [reflexivity |]. unfold same_obs, observable. simpl. congruence.
Qed.

Lemma blind_res_status code : blind (res_status (World:=World) code).
Proof.
  intros s1 s2 H. apply same_obs_inv in H. destruct H as (H1 & H2 & H3 & H4).
  split; [reflexivity |]. unfold same_obs, observable. simpl. congruence.
Qed.

Lemma blind_res_end b : blind (res_end (World:=World) b).
Proof.
  intros s1 s2 H. apply same_obs_inv in H. destruct H as (H1 & H2 & H3 & H4).
  unfold res_end. rewrite H4. destruct (response s2) eqn:E.
  - split; [reflexivity |]. unfold same_obs, observable. simpl. congruence.
  - split; [reflexivity |]. unfold same_obs, observable. simpl. congruence.
Qed.

Lemma blind_bind {A B} (c : M World A) (k : A -> M World B) :
  blind c -> (forall a, blind (k a)) -> blind (bind c k).
Proof.
  intros Hc Hk s1 s2 H. unfold bind. destruct (Hc s1 s2 H) as [E O].
  destruct (c s1) as [[a1 | e1] s1'], (c s2) as [[a2 | e2] s2'];
    simpl in *; try discriminate.
  - inversion E; subst. now apply Hk.
  - inversion E; subst. split; [reflexivity | assumption].
Qed.

Lemma blind_try_catch {A} (c : M World A) (h : thrown -> M World A) :
  blind c -> (forall e, blind (h e)) -> blind (try_catch c h).
Proof.
  intros Hc Hh s1 s2 H. unfold try_catch. destruct (Hc s1 s2 H) as [E O].
  destruct (c s1) as [[a1 | e1] s1'], (c s2) as [[a2 | e2] s2'];
    simpl in *; try discriminate.
  - split; assumption.
  - inversion E; subst. now apply Hh.
Qed.

Lemma blind_axios_await call : blind (axios_await axios call).
Proof.
  intros s1 s2 H. apply same_obs_inv in H. destruct H as (H1 & H2 & H3 & H4).
  unfold axios_await. rewrite H1.
  destruct (axios (world s2) call) as [[data | err] w]; simpl;
    (split; [reflexivity |]); unfold same_obs, observable; simpl; congruence.
Qed.

Lemma blind_for_of {A} (items : list A) (body : A -> M World unit) :
  (forall x, blind (body x)) -> blind (for_of items body).
Proof.
  intros Hb. induction items as [| x rest IH]; simpl.
  - apply blind_ret.
  - apply blind_bind; [apply Hb | intros _; exact IH].
Qed.

Create HintDb blind.
#[local] Hint Resolve blind_ret blind_lift blind_console_log blind_res_status blind_res_end
  blind_axios_await : blind.

Ltac blind :=
  repeat first
    [ apply blind_bind; [| intros ?]
    | apply blind_try_catch; [| intros ?]
    | apply blind_for_of; intros ?
    | solve [auto with blind]
    | match goal with |- blind (if ?b then _ else _) => destruct b end ].

Lemma blind_process_entries payload : blind (process_entries axios env payload).
Proof.
  unfold process_entries, handle_entry, changes, handle_event, tryReplyInstagram. blind.
Qed.

Lemma blind_acknowledge payload :
  blind (try_catch (process_entries axios env payload) log_processing_error ;;
         res_sendStatus 200).
Proof.
  apply blind_bind.
  - apply blind_try_catch; [apply blind_process_entries |].
    intros e. unfold log_processing_error. blind.
  - intros _. unfold res_sendStatus. blind.
Qed.

End Frames.

(** ** Send-reply and the webhook receiver *)

Section Webhook.

Context {World : Type}.
Variable axios : World -> AxiosCall -> AxiosResult * World.
Variable env : Env.

Lemma tryReplyInstagram_run igPsid text (s : Sys World) :
  let call := send_call env igPsid text in
  let s' := mkSys (snd (axios (world s) call)) (sent s ++ [call])%list (console s)
                  (statusCode s) (response s) in
  tryReplyInstagram axios env igPsid text s
  = (inl match fst (axios (world s) call) with
         | Fulfilled data => VObj [("ok", VBool true); ("data", data)]
         | Rejected err => failure_result (AxiosError err)
         end, s').
Proof.
  cbv zeta. unfold tryReplyInstagram, try_catch, bind, axios_await.
  destruct (axios (world s) (send_call env igPsid text)) as [[data | err] w]; reflexivity.
Qed.

(** An event with a sender id and a message, whose reply text can be built,
    issues exactly one send call and logs its result. *)
Lemma handle_event_run event text (s : Sys World) :
  let call := send_call env (opt (opt event "sender") "id") (VStr text) in
  truthy (opt (opt event "sender") "id") = true -> truthy (opt event "message") = true ->
  replyText (opt (opt event "message") "text") = inl text ->
  handle_event axios env event s
  = (inl tt,
     mkSys (snd (axios (world s) call)) (sent s ++ [call])%list
           (console s ++
            [LogValue "Reply attempt:"
               match fst (axios (world s) call) with
               | Fulfilled data => VObj [("ok", VBool true); ("data", data)]
               | Rejected err => failure_result (AxiosError err)
               end])%list
           (statusCode s) (response s)).
Proof.
  cbv zeta. intros Hs Hm Ht. unfold handle_event. rewrite Hs, Hm, Ht. cbn [andb].
  unfold bind, lift. rewrite tryReplyInstagram_run. reflexivity.
Qed.

Lemma handle_event_reply event text (s : Sys World) :
  let senderId := opt (opt event "sender") "id" in
  truthy senderId = true -> truthy (opt event "message") = true ->
  replyText (opt (opt event "message") "text") = inl text ->
  fst (handle_event axios env event s) = inl tt
  /\ sent (snd (handle_event axios env event s))
     = (sent s ++ [send_call env senderId (VStr text)])%list.
Proof.
  cbv zeta. intros Hs Hm Ht. rewrite (handle_event_run event text) by assumption.
  now split.
Qed.

(** When the reply text cannot be built, the event throws before any send. *)
Lemma handle_event_fail event e (s : Sys World) :
  truthy (opt (opt event "sender") "id") = true -> truthy (opt event "message") = true ->
  replyText (opt (opt event "message") "text") = inr e ->
  handle_event axios env event s = (inr e, s).
Proof.
  intros Hs Hm Ht. unfold handle_event. rewrite Hs, Hm, Ht. reflexivity.
Qed.

(** The reply text over a text that has a string form. *)
Lemma replyText_said (messageText : value) (said : string) :
  to_string (or_else messageText (VStr "(no text)")) = inl said ->
  replyText messageText
  = inl ("Thanks for messaging us! You said: " ++ dquote ++ said ++ dquote)%string.
Proof. intros H. unfold replyText. now rewrite H. Qed.

(** Any other event does nothing at all. *)
Lemma handle_event_skip event (s : Sys World) :
  truthy (opt (opt event "sender") "id") && truthy (opt event "message") = false ->
  handle_event axios env event s = (inl tt, s).
Proof.
  intros H. unfold handle_event. rewrite andb_comm, H. reflexivity.
Qed.

(** The selection [entry.messaging || entry.standby || []]. *)
Lemma changes_run entry (s : Sys World) :
  nullish entry = false ->
  changes entry s
  = (inl (if truthy (own entry "messaging") then own entry "messaging"
          else if truthy (own entry "standby") then own entry "standby"
          else VArr []), s).
Proof.
  intros H. unfold changes, bind, lift, get. rewrite H.
  destruct (truthy (own entry "messaging")); reflexivity.
Qed.

(** Once the signature is accepted and the payload supports property access,
    the handler logs, processes the entries under its [try] and acknowledges. *)
Lemma post_webhook_verified (req : Request) (s : Sys World) :
  verifyMetaSignature env req = true -> nullish (req_body req) = false ->
  post_webhook axios env req s
  = (try_catch (process_entries axios env (req_body req)) log_processing_error ;;
     res_sendStatus 200)
      (mkSys (world s) (sent s)
             ((console s ++ [LogText "assdas"])
                ++ [LogValue "incoming webhook" (req_body req)])%list
             (statusCode s) (response s)).
Proof.
  intros Hv Hb. unfold post_webhook. rewrite Hv. cbn [negb].
  unfold bind at 1. cbn [console_log world sent console statusCode response].
  unfold bind at 1. cbn [console_log world sent console statusCode response].
  unfold bind at 1. unfold lift, get. rewrite Hb.
  unfold bind at 1.
  destruct (negb (strict_eq (own (req_body req) "object") (VStr "instagram")));
    reflexivity.
Qed.

(** C8: the send-reply operation never throws.  It issues one POST and returns
    [{ok: true, data}] with the remote payload when the call is fulfilled, and
    [{ok: false, error}] with status, code, subcode, message and type read
    from the error's response when the call is rejected. *)
Theorem tryReplyInstagram_never_throws igPsid text (s : Sys World) :
  exists result,
    fst (tryReplyInstagram axios env igPsid text s) = inl result
    /\ sent (snd (tryReplyInstagram axios env igPsid text s))
       = (sent s ++ [send_call env igPsid text])%list
    /\ match fst (axios (world s) (send_call env igPsid text)) with
       | Fulfilled data => result = VObj [("ok", VBool true); ("data", data)]
       | Rejected err =>
           let resp := opt err "response" in
           let detail := opt (or_else (opt resp "data") (VObj [])) "error" in
           result = VObj [("ok", VBool false);
                          ("error", VObj [("status", opt resp "status");
                                          ("code", opt detail "code");
                                          ("subcode", opt detail "error_subcode");
                                          ("message", opt detail "message");
                                          ("type", opt detail "type")])]
       end.
Proof.
  rewrite tryReplyInstagram_run. cbv zeta. simpl fst. simpl snd.
  eexists. split; [reflexivity |]. split; [reflexivity |].
  destruct (fst (axios (world s) (send_call env igPsid text))); reflexivity.
Qed.

(** C7, as amended: an event with a (truthy) sender id and message object
    makes the handler issue one POST whose payload is
    [{messaging_product: "instagram", recipient: {id: senderId},
      message: {text: 'Thanks for messaging us! You said: "T"'}}],
    where T is the string form of the message text when the text is truthy
    (the text itself when it is a non-empty string) and "(no text)" when the
    text is absent or empty (falsy); an event whose text has no string form
    is not answered, the template throws before the send; the example of
    sender "U1" and text "hi" yields exactly the payload of the
    specification. *)
Theorem reply_payload_of_event :
  (forall event T (s : Sys World),
      let senderId := opt (opt event "sender") "id" in
      let text := opt (opt event "message") "text" in
      truthy senderId = true -> truthy (opt event "message") = true ->
      to_string (if truthy text then text else VStr "(no text)") = inl T ->
      sent (snd (handle_event axios env event s))
      = (sent s ++
         [mkCall POST "https://graph.facebook.com/v21.0/me/messages"
            (VObj [("messaging_product", VStr "instagram");
                   ("recipient", VObj [("id", senderId)]);
                   ("message",
                    VObj [("text",
                           VStr ("Thanks for messaging us! You said: "
                                 ++ dquote ++ T ++ dquote))])])
            (VObj [("headers", VObj [("Authorization", VStr ("Bearer " ++ token env))])])])%list)
  /\ (forall t : string,
         t <> ""%string -> truthy (VStr t) = true /\ to_string (VStr t) = inl t)
  /\ (truthy VUndef = false /\ truthy VNull = false /\ truthy (VStr "") = false
      /\ to_string (VStr "(no text)") = inl "(no text)"%string)
  /\ (forall event e (s : Sys World),
         let text := opt (opt event "message") "text" in
         truthy (opt (opt event "sender") "id") = true ->
         truthy (opt event "message") = true ->
         to_string (if truthy text then text else VStr "(no text)") = inr e ->
         handle_event axios env event s = (inr e, s))
  /\ (forall req (w : World),
         req_body req
         = VObj [("entry",
                  VArr [VObj [("messaging",
                               VArr [VObj [("sender", VObj [("id", VStr "U1")]);
                                           ("message", VObj [("text", VStr "hi")])]])]])] ->
         verifyMetaSignature env req = true ->
         let final := snd (post_webhook axios env req (fresh w)) in
         response final = Some (mkResponse 200 (StatusText "OK"))
         /\ map call_method (sent final) = [POST]
         /\ map call_data (sent final)
            = [VObj [("messaging_product", VStr "instagram");
                     ("recipient", VObj [("id", VStr "U1")]);
                     ("message",
                      VObj [("text",
                             VStr ("Thanks for messaging us! You said: "
                                   ++ dquote ++ "hi" ++ dquote))])]]).
Proof.
  split; [| split; [| split; [| split]]].
  - intros event T s senderId text Hs Hm HT.
    destruct (handle_event_reply event _ s Hs Hm (replyText_said _ T HT)) as [_ ->].
    reflexivity.
  - intros t Ht. split; [| reflexivity]. simpl.
    destruct (String.eqb_spec t ""); [contradiction | reflexivity].
  - repeat split.
  - intros event e s text Hs Hm HT. apply handle_event_fail; try assumption.
    unfold replyText, or_else. fold text. now rewrite HT.
  - intros req w Hb Hv. cbv zeta.
    rewrite (post_webhook_verified req (fresh w) Hv) by (rewrite Hb; reflexivity).
    rewrite Hb. unfold try_catch, process_entries, bind, lift.
    cbn [get nullish own lookup String.eqb Ascii.eqb Bool.eqb truthy iterate for_of].
    unfold handle_entry, bind, lift. rewrite changes_run by reflexivity.
    cbn [own lookup String.eqb Ascii.eqb Bool.eqb truthy iterate for_of].
    unfold bind. erewrite handle_event_run by reflexivity.
    cbn. repeat split.
Qed.

(** C7 as stated fails on an empty text: the text is present and empty, the
    claim puts it between the quotes, the code puts "(no text)" there. *)
Lemma empty_text_reply_counterexample :
  let event := VObj [("sender", VObj [("id", VStr "U1")]);
                     ("message", VObj [("text", VStr "")])] in
  opt (opt event "message") "text" = VStr ""
  /\ map call_data
       (sent (snd (handle_event scripted (mkEnv (Some "TOKEN") (Some "vt") None) event
                     (fresh [Fulfilled (VObj [])]))))
     = [VObj [("messaging_product", VStr "instagram");
              ("recipient", VObj [("id", VStr "U1")]);
              ("message",
               VObj [("text",
                      VStr ("Thanks for messaging us! You said: "
                            ++ dquote ++ "(no text)" ++ dquote))])]]
  /\ VStr ("Thanks for messaging us! You said: " ++ dquote ++ "(no text)" ++ dquote)
     <> VStr ("Thanks for messaging us! You said: " ++ dquote ++ EmptyString ++ dquote).
Proof.
  cbv zeta. split; [reflexivity |]. split; [reflexivity |]. discriminate.
Qed.

(** C2, as amended: in each entry the handler selects the messaging list when
    it is present (truthy), otherwise the standby list when it is present,
    otherwise the empty list; the events of the selected list are handled the
    same way whichever field they came from, so a standby event that carries
    a sender id and a message triggers a send-reply call exactly as a
    messaging event does: one call, whenever its reply text can be built. *)
Theorem changes_selection_and_standby :
  (forall entry (s : Sys World),
      nullish entry = false ->
      changes entry s
      = (inl (if truthy (own entry "messaging") then own entry "messaging"
              else if truthy (own entry "standby") then own entry "standby"
              else VArr []), s))
  /\ (forall events (s : Sys World),
         handle_entry axios env (VObj [("standby", VArr events)]) s
         = handle_entry axios env (VObj [("messaging", VArr events)]) s)
  /\ (forall event reply (s : Sys World),
         truthy (opt (opt event "sender") "id") = true ->
         truthy (opt event "message") = true ->
         replyText (opt (opt event "message") "text") = inl reply ->
         sent (snd (handle_entry axios env (VObj [("standby", VArr [event])]) s))
         = (sent s ++ [send_call env (opt (opt event "sender") "id") (VStr reply)])%list).
Proof.
  split; [exact changes_run | split].
  - intros events s. reflexivity.
  - intros event reply s Hs Hm Ht.
    destruct (handle_event_reply event reply s Hs Hm Ht) as [E1 E2].
    unfold handle_entry, bind. rewrite changes_run by reflexivity.
    cbn [own lookup String.eqb Ascii.eqb Bool.eqb truthy lift iterate for_of].
    unfold bind.
    destruct (handle_event axios env event s) as [[[] | e] s'] eqn:E;
      simpl in *; [exact E2 | discriminate].
Qed.

(** What the receiver does keep of the acknowledgement: a refused signature
    is answered 403 with nothing else done, and an accepted request whose
    parsed payload supports property access (every object or array) is
    answered 200 whatever happens while the events are processed. *)
Lemma post_webhook_status (req : Request) (w : World) :
  let run := post_webhook axios env req (fresh w) in
  (verifyMetaSignature env req = false ->
   fst run = inl tt
   /\ response (snd run) = Some (mkResponse 403 (StatusText "Forbidden"))
   /\ sent (snd run) = [] /\ world (snd run) = w)
  /\ (verifyMetaSignature env req = true -> nullish (req_body req) = false ->
      fst run = inl tt
      /\ response (snd run) = Some (mkResponse 200 (StatusText "OK"))
      /\ (forall s, fst (try_catch (process_entries axios env (req_body req))
                                   log_processing_error s) = inl tt)
      /\ (forall s e s',
             process_entries axios env (req_body req) s = (inr e, s') ->
             exists entry,
               snd (try_catch (process_entries axios env (req_body req))
                              log_processing_error s)
               = mkSys (world s') (sent s') (console s' ++ [entry])%list
                       (statusCode s') (response s')
               /\ (entry = LogThrown "Webhook processing error:" e
                   \/ exists data, entry = LogValue "Webhook processing error:" data))).
Proof.
  cbv zeta. split.
  - intros Hv. unfold post_webhook. rewrite Hv. cbn. auto.
  - intros Hv Hb. rewrite (post_webhook_verified req (fresh w) Hv Hb).
    cbn [fresh world sent console statusCode response].
    set (s0 := mkSys _ _ _ _ _).
    pose proof (guarded_processing_returns axios env (req_body req) s0) as Hret.
    assert (keeps_response (try_catch (process_entries axios env (req_body req))
                                      (log_processing_error (World:=World)))) as Hk.
    { apply keeps_try_catch; [apply keeps_process_entries |].
      intros e. apply keeps_log_processing_error. }
    destruct (Hk s0) as [Hst Hre].
    unfold bind at 1. unfold bind at 1.
    destruct (try_catch _ _ s0) as [[[] | e] s1]; simpl in Hret, Hst, Hre;
      [| discriminate].
    unfold res_sendStatus, bind, res_status, res_end. simpl. rewrite Hre. simpl.
    split; [reflexivity |]. split; [reflexivity |].
    split; [intros s; apply guarded_processing_returns |].
    intros s e s' Hp. unfold try_catch. rewrite Hp.
    unfold log_processing_error, console_log.
    destruct (truthy (opt (thrown_opt e "response") "data")); eexists; split;
      try reflexivity; eauto.
Qed.

(** C10: two requests whose payloads are objects that agree on every field but
    [object], and on which signature verification gives the same verdict, make
    the handler issue the same outbound calls, leave the remote side in the
    same state and send the same response. *)
Theorem discriminator_irrelevant (req1 req2 : Request) f1 f2 (w : World) :
  req_body req1 = VObj f1 -> req_body req2 = VObj f2 ->
  (forall k, k <> "object"%string -> lookup k f1 = lookup k f2) ->
  verifyMetaSignature env req1 = verifyMetaSignature env req2 ->
  let run1 := post_webhook axios env req1 (fresh w) in
  let run2 := post_webhook axios env req2 (fresh w) in
  fst run1 = fst run2 /\ observable (snd run1) = observable (snd run2).
Proof.
  intros B1 B2 Hf Hv. cbv zeta.
  destruct (verifyMetaSignature env req2) eqn:Hv2.
  - rewrite (post_webhook_verified req1 (fresh w)), (post_webhook_verified req2 (fresh w));
      try assumption; try (rewrite ?B1, ?B2; reflexivity).
    rewrite B1, B2.
    assert (process_entries axios env (VObj f1) = process_entries axios env (VObj f2)) as ->.
    { unfold process_entries, get. cbn [nullish own].
      rewrite (Hf "entry"%string); [reflexivity | discriminate]. }
    apply (blind_acknowledge axios env (VObj f2)). reflexivity.
  - unfold post_webhook. rewrite Hv, Hv2. cbn. auto.
Qed.

End Webhook.

Lemma reply_payload_of_event_witness :
  let env := mkEnv (Some "TOKEN") (Some "vt") None in
  let event := VObj [("sender", VObj [("id", VStr "U1")]); ("message", VObj [])] in
  sent (snd (handle_event scripted env event (fresh [Fulfilled (VObj [])])))
  = [mkCall POST "https://graph.facebook.com/v21.0/me/messages"
       (VObj [("messaging_product", VStr "instagram");
              ("recipient", VObj [("id", VStr "U1")]);
              ("message",
               VObj [("text",
                      VStr ("Thanks for messaging us! You said: "
                            ++ dquote ++ "(no text)" ++ dquote))])])
       (send_config env)].
Proof.
  cbv zeta.
  apply (proj1 (reply_payload_of_event scripted (mkEnv (Some "TOKEN") (Some "vt") None))
           (VObj [("sender", VObj [("id", VStr "U1")]); ("message", VObj [])])
           "(no text)"%string
           (fresh [Fulfilled (VObj [])])); reflexivity.
Defined.

(** C2 as stated fails: with no messaging list in the entry, an event of the
    standby list is selected and answered with a send-reply call. *)
Lemma standby_reply_counterexample :
  let env := mkEnv (Some "TOKEN") (Some "vt") None in
  let event := VObj [("sender", VObj [("id", VStr "U1")]);
                     ("message", VObj [("text", VStr "hi")])] in
  let entry := VObj [("standby", VArr [event])] in
  let req := mkRequest (VObj []) [] None (VObj [("entry", VArr [entry])]) in
  fst (changes entry (fresh [Fulfilled (VObj [])])) = inl (VArr [event])
  /\ sent (snd (post_webhook scripted env req (fresh [Fulfilled (VObj [])])))
     = [send_call env (VStr "U1")
          (VStr ("Thanks for messaging us! You said: " ++ dquote ++ "hi" ++ dquote))]
  /\ sent (snd (post_webhook scripted env req (fresh [Fulfilled (VObj [])]))) <> [].
Proof.
  cbv zeta. split; [reflexivity |]. split; [reflexivity |]. discriminate.
Qed.

Lemma changes_selection_and_standby_witness :
  let env := mkEnv (Some "TOKEN") (Some "vt") None in
  let event := VObj [("sender", VObj [("id", VStr "U1")]);
                     ("message", VObj [("text", VStr "hi")])] in
  changes (VObj [("messaging", VNull); ("standby", VArr [event])]) (fresh [Rejected VNull])
  = (inl (VArr [event]), fresh [Rejected VNull])
  /\ sent (snd (handle_entry scripted env (VObj [("standby", VArr [event])])
                  (fresh [Rejected VNull])))
     = [send_call env (VStr "U1")
          (VStr ("Thanks for messaging us! You said: " ++ dquote ++ "hi" ++ dquote))].
Proof.
  cbv zeta. split.
  - apply (proj1 (changes_selection_and_standby scripted
                    (mkEnv (Some "TOKEN") (Some "vt") None))
             (VObj [("messaging", VNull);
                    ("standby",
                     VArr [VObj [("sender", VObj [("id", VStr "U1")]);
                                 ("message", VObj [("text", VStr "hi")])]])])).
    reflexivity.
  - apply (proj2 (proj2 (changes_selection_and_standby scripted
                           (mkEnv (Some "TOKEN") (Some "vt") None)))
             (VObj [("sender", VObj [("id", VStr "U1")]);
                    ("message", VObj [("text", VStr "hi")])])
             ("Thanks for messaging us! You said: " ++ dquote ++ "hi" ++ dquote)%string
             (fresh [Rejected VNull])); reflexivity.
Defined.

Lemma post_webhook_status_witness :
  let env := mkEnv (Some "TOKEN") (Some "vt") (Some "s3cret") in
  let forged := mkRequest (VObj []) [("x-hub-signature-256", "sha256=00")]
                          (Some (Crypto.Buffer_from "{}")) (VObj []) in
  let odd := mkRequest (VObj []) [] None
                       (VObj [("entry", VArr [VNull; VObj [("messaging", VNum "7")]])]) in
  response (snd (post_webhook scripted env forged (fresh [])))
  = Some (mkResponse 403 (StatusText "Forbidden"))
  /\ response (snd (post_webhook scripted env odd (fresh [])))
     = Some (mkResponse 200 (StatusText "OK")).
Proof.
  cbv zeta. split.
  - apply (proj1 (post_webhook_status scripted
                    (mkEnv (Some "TOKEN") (Some "vt") (Some "s3cret"))
                    (mkRequest (VObj []) [("x-hub-signature-256", "sha256=00")]
                               (Some (Crypto.Buffer_from "{}")) (VObj []))
                    [])).
    vm_compute. reflexivity.
  - apply (proj2 (post_webhook_status scripted
                    (mkEnv (Some "TOKEN") (Some "vt") (Some "s3cret"))
                    (mkRequest (VObj []) [] None
                       (VObj [("entry", VArr [VNull; VObj [("messaging", VNum "7")]])]))
                    [])); reflexivity.
Defined.

(** C3 on a request whose body the JSON parser left undefined: there is no
    signature header, so verification passes; [body.object] is read before
    the [try], the read throws, and the handler never reaches
    [res.sendStatus(200)]: it sends no acknowledgement and makes no call. *)
Theorem webhook_undefined_body_unacknowledged :
  let env := mkEnv (Some "TOKEN") (Some "vt") (Some "s3cret") in
  let req := mkRequest (VObj []) [] None VUndef in
  let run := post_webhook scripted env req (fresh []) in
  verifyMetaSignature env req = true
  /\ (exists msg, fst run = inr (TypeError msg))
  /\ response (snd run) = None
  /\ sent (snd run) = [].
Proof.
  cbv zeta. split; [reflexivity |]. split; [eexists; reflexivity |].
  split; reflexivity.
Qed.

Lemma discriminator_irrelevant_witness :
  let env := mkEnv (Some "TOKEN") (Some "vt") None in
  let entry := ("entry",
                VArr [VObj [("messaging",
                             VArr [VObj [("sender", VObj [("id", VStr "U1")]);
                                         ("message", VObj [("text", VStr "hi")])]])]]) in
  let req1 := mkRequest (VObj []) [] None (VObj [("object", VStr "instagram"); entry]) in
  let req2 := mkRequest (VObj []) [] None (VObj [("object", VStr "page"); entry]) in
  observable (snd (post_webhook scripted env req1 (fresh [Fulfilled (VObj [])])))
  = observable (snd (post_webhook scripted env req2 (fresh [Fulfilled (VObj [])]))).
Proof.
  cbv zeta.
  refine (proj2 (discriminator_irrelevant scripted (mkEnv (Some "TOKEN") (Some "vt") None)
                   (mkRequest (VObj []) [] None _) (mkRequest (VObj []) [] None _)
                   _ _ [Fulfilled (VObj [])] eq_refl eq_refl _ eq_refl)).
  intros k Hk. simpl.
  destruct (String.eqb_spec k "object"); [contradiction | reflexivity].
Defined.

(** ** Business-account resolution and the conversation lister *)

Section Resolution.

Context {World : Type}.
Variable axios : World -> AxiosCall -> AxiosResult * World.
Variable env : Env.

(** C9: business-account resolution issues the identity GET, then a second
    GET on the identity's id asking for connected_instagram_account and
    instagram_business_account, and returns the id of the first when it is
    present (truthy), otherwise the id of the second when it is present;
    when neither yields an id it throws the resolution error, which reaches
    the caller. *)
Theorem getIGUserId_resolution (s : Sys World) me w1 id page w2 :
  let tok := match PAGE_ACCESS_TOKEN env with Some t => t | None => "undefined"%string end in
  let identity :=
    mkCall GET ("https://graph.facebook.com/v21.0/me?fields=id&access_token=" ++ tok)
           VUndef VUndef in
  let linking :=
    mkCall GET ("https://graph.facebook.com/v21.0/" ++ id
                ++ "?fields=connected_instagram_account,instagram_business_account&access_token="
                ++ tok)
           VUndef VUndef in
  let first := opt (opt page "connected_instagram_account") "id" in
  let second := opt (opt page "instagram_business_account") "id" in
  let run := getIGUserId axios env s in
  axios (world s) identity = (Fulfilled me, w1) ->
  nullish me = false ->
  to_string (own me "id") = inl id ->
  axios w1 linking = (Fulfilled page, w2) ->
  sent (snd run) = (sent s ++ [identity; linking])%list
  /\ fst run = (if truthy first then inl first
                else if truthy second then inl second
                else inr (Error "Could not resolve IG Business User ID. Ensure IG account is connected to the FB Page and permissions are granted."))
  /\ (forall req e, fst run = inr e ->
                    fst (list_conversations axios env req s) = inr e).
Proof.
  cbv zeta. intros H1 Hme Hid H2.
  assert (getIGUserId axios env s
          = ((if truthy (opt (opt page "connected_instagram_account") "id")
              then inl (opt (opt page "connected_instagram_account") "id")
              else if truthy (opt (opt page "instagram_business_account") "id")
                   then inl (opt (opt page "instagram_business_account") "id")
                   else inr resolution_error),
             mkSys w2 ((sent s ++ [mkCall GET (me_url env) VUndef VUndef])
                         ++ [mkCall GET
                               ("https://graph.facebook.com/v21.0/" ++ id
                                ++ "?fields=connected_instagram_account,instagram_business_account&access_token="
                                ++ token env) VUndef VUndef])%list
                   (console s) (statusCode s) (response s))) as E.
  { unfold getIGUserId, bind, axios_await, lift, get, or_else, page_url.
    unfold me_url, token in *.
    rewrite H1. cbn [world sent console statusCode response]. rewrite Hme.
    cbn [world sent console statusCode response]. rewrite Hid.
    cbn [world sent console statusCode response]. rewrite H2.
    cbn [world sent console statusCode response].
    destruct (truthy (opt (opt page "connected_instagram_account") "id")) eqn:Ea.
    - rewrite Ea. reflexivity.
    - destruct (truthy (opt (opt page "instagram_business_account") "id")) eqn:Eb;
        rewrite ?Eb; reflexivity. }
  split; [| split].
  - rewrite E. cbn [snd sent]. now rewrite <- app_assoc.
  - rewrite E. reflexivity.
  - clear E. intros req e He. unfold list_conversations, bind.
    destruct (getIGUserId axios env s) as [[v | e'] s']; simpl in He |- *;
      [discriminate | inversion He; reflexivity].
Qed.

(** Whatever the [try] of the conversation lister throws, the [catch] sets the
    status and then throws itself: nothing is sent. *)
Lemma catch_block_escapes (req : Request) (s : Sys World) e s' :
  list_conversations axios env req s = (inr e, s') ->
  get_ig_conversations axios env req s
  = (inr (ReferenceError "stringifyGraphError is not defined"),
     mkSys (world s') (sent s') (console s') 400 (response s')).
Proof.
  intros H. unfold get_ig_conversations, try_catch. rewrite H. reflexivity.
Qed.

End Resolution.

Lemma getIGUserId_resolution_witness :
  let env := mkEnv (Some "TOKEN") (Some "vt") None in
  let script := [Fulfilled (VObj [("id", VStr "P1")]);
                 Fulfilled (VObj [("instagram_business_account", VObj [("id", VStr "IG9")])])] in
  fst (getIGUserId scripted env (fresh script)) = inl (VStr "IG9")
  /\ map call_url (sent (snd (getIGUserId scripted env (fresh script))))
     = ["https://graph.facebook.com/v21.0/me?fields=id&access_token=TOKEN"%string;
        "https://graph.facebook.com/v21.0/P1?fields=connected_instagram_account,instagram_business_account&access_token=TOKEN"%string].
Proof.
  cbv zeta.
  destruct (getIGUserId_resolution scripted
              (mkEnv (Some "TOKEN") (Some "vt") None)
              (fresh [Fulfilled (VObj [("id", VStr "P1")]);
                      Fulfilled (VObj [("instagram_business_account",
                                        VObj [("id", VStr "IG9")])])])
              (VObj [("id", VStr "P1")])
              [Fulfilled (VObj [("instagram_business_account",
                                 VObj [("id", VStr "IG9")])])]
              "P1"%string
              (VObj [("instagram_business_account", VObj [("id", VStr "IG9")])])
              [] eq_refl eq_refl eq_refl eq_refl) as (Hsent & Hres & _).
  split; [exact Hres |]. rewrite Hsent. reflexivity.
Defined.

(** C1 on a failing resolution: the page has no linked account, the resolution
    throws, and the conversation lister answers nothing at all: its [catch]
    sets the status to 400 and then throws a ReferenceError, because the
    module binds no [stringifyGraphError]. *)
Theorem conversations_failure_unanswered :
  let env := mkEnv (Some "TOKEN") (Some "vt") None in
  let req := mkRequest (VObj []) [] None VUndef in
  let script := [Fulfilled (VObj [("id", VStr "P1")]); Fulfilled (VObj [])] in
  let run := get_ig_conversations scripted env req (fresh script) in
  existsb (String.eqb "stringifyGraphError") module_bindings = false
  /\ fst (getIGUserId scripted env (fresh script)) = inr resolution_error
  /\ fst run = inr (ReferenceError "stringifyGraphError is not defined")
  /\ response (snd run) = None
  /\ statusCode (snd run) = 400.
Proof.
  cbv zeta. repeat split.
Qed.

(** ** The testable properties of the specification, run on the model *)

Example verify_known_signature :
  verify (Some (Crypto.Buffer_from "{}"))
         (Some "sha256=adbde1ce40c89c14215687d5d762a47df6dfaefcfad61e2e86718ffc8498571b"%string)
         (Some "s3cret"%string) = true.
Proof. vm_compute. reflexivity. Qed.

Example conversations_success :
  let env := mkEnv (Some "TOKEN") (Some "vt") None in
  let req := mkRequest (VObj [("after", VStr "c1")]) [] None VUndef in
  let script := [Fulfilled (VObj [("id", VStr "P1")]);
                 Fulfilled (VObj [("instagram_business_account", VObj [("id", VStr "IG9")])]);
                 Fulfilled (VObj [("data", VArr [VObj [("id", VStr "t1")]])])] in
  response (snd (get_ig_conversations scripted env req (fresh script)))
  = Some (mkResponse 200
            (Json (VObj [("success", VBool true);
                         ("data", VArr [VObj [("id", VStr "t1")]]);
                         ("paging", VNull)]))).
Proof. reflexivity. Qed.

Example read_receipt_ignored :
  let env := mkEnv (Some "TOKEN") (Some "vt") None in
  let event := VObj [("sender", VObj [("id", VStr "U1")]);
                     ("read", VObj [("mid", VStr "m1")])] in
  let req := mkRequest (VObj []) [] None
                       (VObj [("entry", VArr [VObj [("messaging", VArr [event])]])]) in
  let final := snd (post_webhook scripted env req (fresh [])) in
  sent final = [] /\ response final = Some (mkResponse 200 (StatusText "OK")).
Proof. split; reflexivity. Qed.

Example send_failure_captured :
  let env := mkEnv (Some "TOKEN") (Some "vt") None in
  let err := VObj [("response",
                    VObj [("status", VNum "400");
                          ("data",
                           VObj [("error",
                                  VObj [("message", VStr "outside the allowed window");
                                        ("type", VStr "OAuthException");
                                        ("code", VNum "10");
                                        ("error_subcode", VNum "2018278")])])])] in
  fst (tryReplyInstagram scripted env (VStr "U1") (VStr "hello") (fresh [Rejected err]))
  = inl (VObj [("ok", VBool false);
               ("error", VObj [("status", VNum "400");
                               ("code", VNum "10");
                               ("subcode", VNum "2018278");
                               ("message", VStr "outside the allowed window");
                               ("type", VStr "OAuthException")])]).
Proof. reflexivity. Qed.

(** * Further properties of the code *)

(** ** What the webhook receiver sends *)

Section WebhookCalls.

Context {World : Type}.
Variable axios : World -> AxiosCall -> AxiosResult * World.
Variable env : Env.

Lemma event_outcome_cases (event : value) :
  match event_outcome env event with
  | Ignored =>
      truthy (opt (opt event "sender") "id") && truthy (opt event "message") = false
  | Answered call =>
      exists text,
        call = send_call env (opt (opt event "sender") "id") (VStr text)
        /\ truthy (opt (opt event "sender") "id") = true
        /\ truthy (opt event "message") = true
        /\ replyText (opt (opt event "message") "text") = inl text
  | Failed e =>
      truthy (opt (opt event "sender") "id") = true
      /\ truthy (opt event "message") = true
      /\ replyText (opt (opt event "message") "text") = inr e
  end.
Proof.
  unfold event_outcome, replyable.
  destruct (truthy (opt event "message")) eqn:Hm;
    destruct (truthy (opt (opt event "sender") "id")) eqn:Hs; cbn [andb]; try reflexivity.
  destruct (replyText (opt (opt event "message") "text")) as [text | e] eqn:Ht.
  - exists text. auto.
  - auto.
Qed.

(** The inner loop answers the events in order, up to the first one whose
    reply text cannot be built, whatever the remote side answers. *)
Lemma for_of_events_run (events : list value) :
  forall s : Sys World,
  exists r s',
    for_of events (handle_event axios env) s = (r, s')
    /\ sent s' = (sent s ++ fst (event_calls env events))%list
    /\ (snd (event_calls env events) = true -> r = inl tt)
    /\ (snd (event_calls env events) = false -> exists e, r = inr e).
Proof.
  induction events as [| event rest IH]; intros s.
  - exists (inl tt), s. cbn. rewrite app_nil_r. repeat split; discriminate.
  - cbn [for_of event_calls]. unfold bind.
    pose proof (event_outcome_cases event) as Hc.
    destruct (event_outcome env event) as [| call | e].
    + rewrite (handle_event_skip axios env event s Hc). apply IH.
    + destruct Hc as (text & -> & Hs & Hm & Ht).
      rewrite (handle_event_run axios env event text s Hs Hm Ht).
      match goal with |- context [for_of rest _ ?s1] =>
        destruct (IH s1) as (r & s' & E & Hsent & Hok & Hko) end.
      exists r, s'. split; [exact E |].
      destruct (event_calls env rest) as [calls finished]. cbn [fst snd] in *.
      split; [| split; assumption].
      rewrite Hsent. cbn [sent]. rewrite <- app_assoc. reflexivity.
    + destruct Hc as (Hs & Hm & Ht).
      rewrite (handle_event_fail axios env event e s Hs Hm Ht).
      exists (inr e), s. cbn. rewrite app_nil_r.
      split; [reflexivity |]. split; [reflexivity |]. split; [discriminate | eauto].
Qed.

Lemma handle_entry_run (entry : value) (s : Sys World) :
  exists r s',
    handle_entry axios env entry s = (r, s')
    /\ sent s' = (sent s ++ fst (entry_calls env entry))%list
    /\ (completes env entry = true -> r = inl tt)
    /\ (completes env entry = false -> exists e, r = inr e).
Proof.
  unfold completes, entry_calls, well_formed_entry, events_of, handle_entry.
  destruct (nullish entry) eqn:Hn; cbn [negb andb].
  - unfold bind, changes, bind, lift, get. rewrite Hn.
    eexists _, s. split; [reflexivity |]. cbn. rewrite app_nil_r.
    split; [reflexivity |]. split; [discriminate | eauto].
  - unfold bind at 1. rewrite (changes_run entry s Hn).
    fold (or_else (own entry "standby") (VArr [])). fold (selected entry).
    unfold bind, lift. destruct (iterate "changes" (selected entry)) as [events | e].
    + apply for_of_events_run.
    + exists (inr e), s. cbn. rewrite app_nil_r.
      split; [reflexivity |]. split; [reflexivity |]. split; [discriminate | eauto].
Qed.

(** The outer loop: the calls of the entries up to the first throw; it
    returns normally exactly when every entry completes. *)
Lemma for_of_entries_run (entries : list value) :
  forall s : Sys World,
  exists r s',
    for_of entries (handle_entry axios env) s = (r, s')
    /\ sent s' = (sent s ++ processed_calls env entries)%list
    /\ (forallb (completes env) entries = true -> r = inl tt)
    /\ (forallb (completes env) entries = false -> exists e, r = inr e).
Proof.
  induction entries as [| entry rest IH]; intros s.
  - exists (inl tt), s. cbn. rewrite app_nil_r. repeat split; discriminate.
  - cbn [for_of processed_calls forallb]. unfold bind.
    destruct (handle_entry_run entry s) as (r1 & s1 & E & Hs & Hok & Hko). rewrite E.
    destruct (completes env entry) eqn:W.
    + rewrite (Hok eq_refl).
      destruct (IH s1) as (r & s' & E' & Hs' & Hok' & Hko').
      exists r, s'. split; [exact E' |]. split.
      * rewrite Hs', Hs, <- app_assoc. reflexivity.
      * split; assumption.
    + destruct (Hko eq_refl) as (e & ->).
      exists (inr e), s1. split; [reflexivity |]. split; [exact Hs |].
      split; [discriminate | eauto].
Qed.

Lemma process_entries_run (payload : value) (s : Sys World) :
  nullish payload = false ->
  exists r s',
    process_entries axios env payload s = (r, s')
    /\ sent s' = (sent s ++ webhook_calls env payload)%list.
Proof.
  intros Hn. unfold process_entries, webhook_calls, entries_of, bind, lift, get.
  rewrite Hn. destruct (truthy (own payload "entry")).
  - destruct (iterate "body.entry" (own payload "entry")) as [items | e].
    + destruct (for_of_entries_run items s) as (r & s' & E & Hs & _).
      exists r, s'. split; assumption.
    + exists (inr e), s. split; [reflexivity |]. cbn. now rewrite app_nil_r.
  - exists (inl tt), s. split; [reflexivity |]. cbn. now rewrite app_nil_r.
Qed.

(** Logging what was caught and acknowledging add no call. *)
Lemma acknowledge_sent (payload : value) (s : Sys World) :
  sent (snd ((try_catch (process_entries axios env payload) log_processing_error ;;
              res_sendStatus 200) s))
  = sent (snd (process_entries axios env payload s)).
Proof.
  unfold bind at 1. unfold try_catch.
  destruct (process_entries axios env payload s) as [[[] | e] s1]; cbn [snd].
  - unfold res_sendStatus, bind, res_status, res_end. cbn.
    destruct (response s1); reflexivity.
  - unfold log_processing_error, console_log.
    destruct (truthy (opt (thrown_opt e "response") "data")); cbn;
      unfold res_sendStatus, bind, res_status, res_end; cbn;
      destruct (response s1); reflexivity.
Qed.

(** The calls of a whole run of the receiver. *)
Lemma post_webhook_sent (req : Request) (w : World) :
  sent (snd (post_webhook axios env req (fresh w)))
  = if verifyMetaSignature env req && negb (nullish (req_body req))
    then webhook_calls env (req_body req)
    else [].
Proof.
  destruct (verifyMetaSignature env req) eqn:Hv; cbn [andb].
  - destruct (nullish (req_body req)) eqn:Hn; cbn [negb].
    + unfold post_webhook. rewrite Hv. cbn [negb]. unfold bind, console_log, lift, get.
      rewrite Hn. reflexivity.
    + rewrite (post_webhook_verified axios env req (fresh w) Hv Hn), acknowledge_sent.
      match goal with
      | |- context [process_entries axios env _ ?s0] =>
          destruct (process_entries_run (req_body req) s0 Hn) as (r & s' & E & Hs)
      end.
      rewrite E. exact Hs.
  - unfold post_webhook. rewrite Hv. reflexivity.
Qed.

End WebhookCalls.

Section WebhookCoverage.

Context {World : Type}.
Variable axios : World -> AxiosCall -> AxiosResult * World.
Variable env : Env.

(** An entry that is well formed and whose events can all be handled. *)
Lemma event_calls_printable (events : list value) :
  forallb (printable env) events = true ->
  event_calls env events = (flat_map (answers env) events, true).
Proof.
  induction events as [| event rest IH]; intros H; [reflexivity |].
  cbn [forallb] in H. apply andb_true_iff in H. destruct H as [P Hrest].
  cbn [event_calls flat_map]. unfold printable, answers in *.
  rewrite (IH Hrest). destruct (event_outcome env event); [reflexivity .. | discriminate].
Qed.

Lemma entry_calls_sound (entry : value) :
  well_formed_entry entry && forallb (printable env) (events_of entry) = true ->
  entry_calls env entry = (flat_map (answers env) (events_of entry), true).
Proof.
  intros H. apply andb_true_iff in H. destruct H as [W P].
  unfold entry_calls. rewrite W. now apply event_calls_printable.
Qed.

Lemma processed_calls_sound (entries : list value) :
  forallb (fun entry => well_formed_entry entry
                        && forallb (printable env) (events_of entry)) entries = true ->
  processed_calls env entries
  = flat_map (fun entry => flat_map (answers env) (events_of entry)) entries.
Proof.
  induction entries as [| entry rest IH]; intros H; [reflexivity |].
  cbn [forallb] in H. apply andb_true_iff in H. destruct H as [W Hrest].
  cbn [processed_calls flat_map]. unfold completes.
  rewrite (entry_calls_sound entry W), (IH Hrest). reflexivity.
Qed.

Lemma processed_calls_stop (good rest : list value) (bad : value) :
  forallb (fun entry => well_formed_entry entry
                        && forallb (printable env) (events_of entry)) good = true ->
  completes env bad = false ->
  processed_calls env (good ++ bad :: rest)
  = (flat_map (fun entry => flat_map (answers env) (events_of entry)) good
       ++ fst (entry_calls env bad))%list.
Proof.
  induction good as [| entry good IH]; intros H Hbad.
  - cbn. now rewrite Hbad.
  - cbn [forallb] in H. apply andb_true_iff in H. destruct H as [W Hgood].
    cbn [app processed_calls flat_map]. unfold completes at 1.
    rewrite (entry_calls_sound entry W), (IH Hgood Hbad), <- app_assoc. reflexivity.
Qed.

(** Every call that [event_calls] lists answers one of the events. *)
Lemma event_calls_answer (events : list value) :
  Forall (fun c => exists event, In event events /\ event_outcome env event = Answered c)
         (fst (event_calls env events)).
Proof.
  induction events as [| event rest IH]; cbn [event_calls]; [constructor |].
  assert (Forall (fun c => exists ev, In ev (event :: rest)
                                      /\ event_outcome env ev = Answered c)
                 (fst (event_calls env rest))) as IH'.
  { eapply Forall_impl; [| exact IH]. intros c (ev & Hin & E). exists ev. split;
      [now right | exact E]. }
  destruct (event_outcome env event) as [| call | e] eqn:E.
  - exact IH'.
  - destruct (event_calls env rest) as [calls finished]. cbn [fst] in *.
    constructor; [| exact IH']. exists event. split; [now left | exact E].
  - constructor.
Qed.

(** Every call that [processed_calls] lists answers an event of an entry. *)
Lemma processed_calls_answer (entries : list value) :
  Forall (fun c => exists entry event,
                In entry entries /\ In event (events_of entry)
                /\ event_outcome env event = Answered c)
         (processed_calls env entries).
Proof.
  induction entries as [| entry rest IH]; cbn [processed_calls]; [constructor |].
  assert (Forall (fun c => exists en event,
                        In en (entry :: rest) /\ In event (events_of en)
                        /\ event_outcome env event = Answered c)
                 (fst (entry_calls env entry))) as Hhere.
  { unfold entry_calls. destruct (well_formed_entry entry); [| constructor].
    eapply Forall_impl; [| apply event_calls_answer].
    intros c (event & Hin & E). exists entry, event. split; [now left | now split]. }
  destruct (completes env entry); [| exact Hhere].
  apply Forall_app. split; [exact Hhere |].
  eapply Forall_impl; [| exact IH].
  intros c (en & event & Hin & Hev & E). exists en, event. split; [now right | now split].
Qed.

(** With the signature accepted and a payload that supports property access,
    the receiver acknowledges with 200. *)
Lemma post_webhook_response_ok (req : Request) (w : World) :
  verifyMetaSignature env req = true -> nullish (req_body req) = false ->
  response (snd (post_webhook axios env req (fresh w)))
  = Some (mkResponse 200 (StatusText "OK")).
Proof.
  intros Hv Hn. rewrite (post_webhook_verified axios env req (fresh w) Hv Hn).
  cbn [fresh world sent console statusCode response].
  set (s0 := mkSys _ _ _ _ _).
  pose proof (guarded_processing_returns axios env (req_body req) s0) as Hret.
  assert (keeps_response (try_catch (process_entries axios env (req_body req))
                                    (log_processing_error (World:=World)))) as Hk.
  { apply keeps_try_catch; [apply keeps_process_entries |].
    intros e. apply keeps_log_processing_error. }
  destruct (Hk s0) as [_ Hre]. unfold bind at 1.
  destruct (try_catch _ _ s0) as [[[] | e] s1]; simpl in Hret, Hre; [| discriminate].
  unfold res_sendStatus, bind, res_status, res_end. simpl. rewrite Hre. reflexivity.
Qed.

(** X1: the outbound calls of the webhook receiver are a function of the
    configuration and the request alone: none when the signature is refused
    or the payload is null or undefined, and otherwise the calls that
    [webhook_calls] reads off the payload.  What the remote side answers,
    failures included, never changes which calls are made. *)
Theorem webhook_calls_determined (req : Request) (w : World) :
  sent (snd (post_webhook axios env req (fresh w)))
  = (if verifyMetaSignature env req && negb (nullish (req_body req))
     then webhook_calls env (req_body req)
     else [])
  /\ forall (World' : Type) (axios' : World' -> AxiosCall -> AxiosResult * World')
            (w' : World'),
      sent (snd (post_webhook axios' env req (fresh w')))
      = sent (snd (post_webhook axios env req (fresh w))).
Proof.
  split; [apply post_webhook_sent |].
  intros World' axios' w'. now rewrite !post_webhook_sent.
Qed.

(** X2: when the payload's [entry] is an array of well-formed entries whose
    events can all be handled (no reply text fails to build), every event
    with a truthy message and sender id is answered by exactly one send
    call, in the order of the payload, and the other events by none. *)
Theorem replyable_events_answered_in_order
    (req : Request) (w : World) (fields : list (string * value)) (entries : list value) :
  verifyMetaSignature env req = true ->
  req_body req = VObj fields ->
  lookup "entry" fields = Some (VArr entries) ->
  forallb (fun entry => well_formed_entry entry
                        && forallb (printable env) (events_of entry)) entries = true ->
  sent (snd (post_webhook axios env req (fresh w)))
  = flat_map (fun entry => flat_map (answers env) (events_of entry)) entries.
Proof.
  intros Hv Hb He Hw. rewrite post_webhook_sent, Hv, Hb. cbn [andb nullish negb].
  unfold webhook_calls, entries_of. cbn [own]. rewrite He. cbn [truthy iterate].
  now apply processed_calls_sound.
Qed.

(** X3: an entry whose processing throws (a null entry, one whose selected list
    cannot be iterated, or one holding an event whose reply text cannot be
    built) ends the processing: the entries before it are answered, its own
    events before the throw are answered, the entries after it never are,
    and the receiver still acknowledges with 200. *)
Theorem malformed_entry_drops_the_rest
    (req : Request) (w : World) (fields : list (string * value))
    (good rest : list value) (bad : value) :
  verifyMetaSignature env req = true ->
  req_body req = VObj fields ->
  lookup "entry" fields = Some (VArr (good ++ bad :: rest)) ->
  forallb (fun entry => well_formed_entry entry
                        && forallb (printable env) (events_of entry)) good = true ->
  completes env bad = false ->
  sent (snd (post_webhook axios env req (fresh w)))
  = (flat_map (fun entry => flat_map (answers env) (events_of entry)) good
       ++ fst (entry_calls env bad))%list
  /\ response (snd (post_webhook axios env req (fresh w)))
     = Some (mkResponse 200 (StatusText "OK")).
Proof.
  intros Hv Hb He Hg Hbad. split.
  - rewrite post_webhook_sent, Hv, Hb. cbn [andb nullish negb].
    unfold webhook_calls, entries_of. cbn [own]. rewrite He. cbn [truthy iterate].
    now apply processed_calls_stop.
  - apply post_webhook_response_ok; [exact Hv | now rewrite Hb].
Qed.

(** X4: a parsed body that is null or undefined is not covered by the [try]:
    once the signature is accepted, reading [body.object] throws a TypeError
    out of the handler, before it calls any method of [res] and before any
    outbound call. *)
Theorem nullish_body_escapes (req : Request) (w : World) :
  verifyMetaSignature env req = true ->
  nullish (req_body req) = true ->
  let run := post_webhook axios env req (fresh w) in
  (exists msg, fst run = inr (TypeError msg))
  /\ response (snd run) = None
  /\ sent (snd run) = []
  /\ world (snd run) = w.
Proof.
  intros Hv Hn. cbv zeta. unfold post_webhook. rewrite Hv. cbn [negb].
  unfold bind, console_log, lift, get. rewrite Hn. cbn.
  split; [eexists; reflexivity | auto].
Qed.

(** X5: whatever the request, every outbound call of the webhook receiver is
    a POST to the message-send endpoint, with the bearer header of the
    configured token, and answers an event of an entry of the request's
    payload that has a truthy message and sender id: the recipient is that
    event's sender id and the text is the reply built from that event's
    message text. *)
Theorem webhook_only_sends_replies (req : Request) (w : World) :
  Forall (fun c =>
            call_method c = POST
            /\ call_url c = "https://graph.facebook.com/v21.0/me/messages"%string
            /\ call_config c
               = VObj [("headers",
                        VObj [("Authorization", VStr ("Bearer " ++ token env))])]
            /\ exists entry event text,
                In entry (entries_of (req_body req))
                /\ In event (events_of entry)
                /\ truthy (opt event "message") = true
                /\ truthy (opt (opt event "sender") "id") = true
                /\ replyText (opt (opt event "message") "text") = inl text
                /\ call_data c
                   = VObj [("messaging_product", VStr "instagram");
                           ("recipient", VObj [("id", opt (opt event "sender") "id")]);
                           ("message", VObj [("text", VStr text)])])
         (sent (snd (post_webhook axios env req (fresh w)))).
Proof.
  rewrite post_webhook_sent.
  destruct (verifyMetaSignature env req && negb (nullish (req_body req)));
    [| constructor].
  unfold webhook_calls.
  eapply Forall_impl; [| apply processed_calls_answer].
  intros c (entry & event & Hin & Hev & E).
  pose proof (event_outcome_cases env event) as Hc. rewrite E in Hc.
  destruct Hc as (text & -> & Hs & Hm & Ht).
  repeat split. exists entry, event, text. repeat split; assumption.
Qed.

End WebhookCoverage.

(** ** Resolution, the generic GET and the conversation lister *)

Section ListerCoverage.

Context {World : Type}.
Variable axios : World -> AxiosCall -> AxiosResult * World.
Variable env : Env.

Lemma lookup_assign_same k v fields : lookup k (assign k v fields) = Some v.
Proof.
  induction fields as [| [k' v'] rest IH]; cbn.
  - now rewrite String.eqb_refl.
  - destruct (String.eqb_spec k k'); cbn.
    + now rewrite String.eqb_refl.
    + destruct (String.eqb_spec k k'); [contradiction | exact IH].
Qed.

Lemma lookup_assign_other k k' v fields :
  k' <> k -> lookup k' (assign k v fields) = lookup k' fields.
Proof.
  intros Hne. induction fields as [| [k0 v0] rest IH]; cbn.
  - destruct (String.eqb_spec k' k); [contradiction | reflexivity].
  - destruct (String.eqb_spec k k0); cbn.
    + subst k0. destruct (String.eqb_spec k' k); [contradiction | reflexivity].
    + destruct (String.eqb_spec k' k0); [reflexivity | exact IH].
Qed.

(** Resolution leaves the Express response object alone. *)
Lemma keeps_getIGUserId : keeps_response (getIGUserId axios env).
Proof.
  unfold getIGUserId.
  apply keeps_bind; [apply keeps_axios_await | intros me].
  apply keeps_bind; [apply keeps_lift | intros PAGE_ID].
  apply keeps_bind; [apply keeps_lift | intros url].
  apply keeps_bind; [apply keeps_axios_await | intros pageResp].
  destruct (truthy _); [apply keeps_ret | intros s; now split].
Qed.


(** X7: when the identity GET is rejected, or answers with a null body, the
    resolution throws at once: the linking GET is never issued.  A rejected
    call is thrown as the error object that axios gave. *)
Theorem getIGUserId_stops_at_identity (s : Sys World) (w1 : World) :
  let identity := mkCall GET (me_url env) VUndef VUndef in
  let after := mkSys w1 (sent s ++ [identity])%list (console s) (statusCode s) (response s) in
  (forall err, axios (world s) identity = (Rejected err, w1) ->
               getIGUserId axios env s = (inr (AxiosError err), after))
  /\ (forall me, axios (world s) identity = (Fulfilled me, w1) -> nullish me = true ->
                 exists msg, getIGUserId axios env s = (inr (TypeError msg), after)).
Proof.
  cbv zeta. split.
  - intros err H. unfold getIGUserId, bind, axios_await. rewrite H. reflexivity.
  - intros me H Hn. unfold getIGUserId, bind, axios_await, lift, get. rewrite H. cbn.
    rewrite Hn. eexists. reflexivity.
Qed.

(** X8: the generic GET always sends the configured token as the
    [access_token] parameter, also over one the caller passed, keeps every
    other parameter as given, and returns the decoded body or throws the
    rejection. *)
Theorem graphGet_passes_token (url : string) (params : list (string * value))
    (s : Sys World) :
  exists ps,
    let call := mkCall GET url VUndef (VObj [("params", VObj ps)]) in
    sent (snd (graphGet axios env url params s)) = (sent s ++ [call])%list
    /\ lookup "access_token" ps = Some (of_env (PAGE_ACCESS_TOKEN env))
    /\ (forall k, k <> "access_token"%string -> lookup k ps = lookup k params)
    /\ fst (graphGet axios env url params s)
       = match fst (axios (world s) call) with
         | Fulfilled data => inl data
         | Rejected err => inr (AxiosError err)
         end.
Proof.
  exists (assign "access_token" (of_env (PAGE_ACCESS_TOKEN env)) params). cbv zeta.
  unfold graphGet, axios_await.
  destruct (axios (world s) _) as [[data | err] w1]; cbn;
    (split; [reflexivity |]); (split; [apply lookup_assign_same |]);
    (split; [intros k Hk; now apply lookup_assign_other | reflexivity]).
Qed.



(** X11: the conversation lister only reads: whatever the request and the
    remote answers, it issues at most three calls and each of them is a GET. *)
Theorem conversations_read_only (req : Request) (w : World) :
  let calls := sent (snd (get_ig_conversations axios env req (fresh w))) in
  (List.length calls <= 3)%nat /\ Forall (fun c => call_method c = GET) calls.
Proof.
  cbv zeta.
  unfold get_ig_conversations, try_catch, list_conversations, getIGUserId, graphGet,
    page_url, conversations_url, destructure,
    bind, axios_await, lift, get, res_json, res_end, res_status, call_unbound, throw, ret.
  cbn [fresh world sent console statusCode response].
  repeat first
    [ match goal with
      | |- context [axios ?x ?c] => destruct (axios x c) as [[? | ?] ?]
      | |- context [nullish ?x] => destruct (nullish x)
      | |- context [to_string ?x] => destruct (to_string x)
      | |- context [if truthy ?x then _ else _] => destruct (truthy x)
      end; cbn [fst snd world sent console statusCode response app existsb orb] ];
    cbn; (split; [lia | repeat constructor]).
Qed.

End ListerCoverage.

(** ** Send failures and the verification hook *)

Section ReplyCoverage.

Context {World : Type}.
Variable axios : World -> AxiosCall -> AxiosResult * World.
Variable env : Env.

(** X12: when a send is rejected and the error carries no usable body (no
    response at all, as on a network failure, a response with an empty
    body, or a body that is not an object), the failure result keeps the
    response status, if any, and its code, subcode, message and type are all
    undefined. *)
Theorem reply_failure_without_detail (igPsid text : value) (s : Sys World) (err : value) :
  fst (axios (world s) (send_call env igPsid text)) = Rejected err ->
  (truthy (opt (opt err "response") "data") = false
   \/ forall fields, opt (opt err "response") "data" <> VObj fields) ->
  fst (tryReplyInstagram axios env igPsid text s)
  = inl (VObj [("ok", VBool false);
               ("error", VObj [("status", opt (opt err "response") "status");
                               ("code", VUndef);
                               ("subcode", VUndef);
                               ("message", VUndef);
                               ("type", VUndef)])]).
Proof.
  intros Hrej Hbody. rewrite tryReplyInstagram_run. cbv zeta. cbn [fst]. rewrite Hrej.
  unfold failure_result, or_else. cbn [thrown_opt].
  destruct (truthy (opt (opt err "response") "data")) eqn:T.
  - destruct Hbody as [Hf | Hno]; [discriminate |].
    destruct (opt (opt err "response") "data") as [| | b | n | t | items | fields];
      try reflexivity.
    exfalso. now apply (Hno fields).
  - reflexivity.
Qed.

End ReplyCoverage.

Section HookCoverage.

Variable env : Env.

(** X13: once [rawBodySaver] has kept the bytes of the body, the request is
    accepted exactly when the signature header is missing or empty, or the
    secret is missing or empty, or the header is the expected signature of
    those bytes under the secret. *)
Theorem verification_decided_by_saved_body (req : Request) (buf : Crypto.Buffer) :
  let signature := header "x-hub-signature-256" (req_headers req) in
  verifyMetaSignature env (rawBodySaver req buf) = true
  <-> (missing signature = true
       \/ missing (APP_SECRET env) = true
       \/ exists key, APP_SECRET env = Some key
                      /\ signature = Some (expected_signature key buf)).
Proof.
  cbv zeta. unfold verifyMetaSignature, verify, signature_check, rawBodySaver.
  cbn [req_rawBody req_headers].
  destruct (missing (header "x-hub-signature-256" (req_headers req))) eqn:Hs;
    [cbn; tauto |].
  destruct (missing (APP_SECRET env)) eqn:Hk; [cbn; tauto |].
  apply missing_false in Hs. destruct Hs as (sig & Es & Hsig).
  apply missing_false in Hk. destruct Hk as (key & Ek & Hkey).
  rewrite Es, Ek. cbn [orb]. split.
  - intros H. right. right. exists key. split; [reflexivity |].
    destruct (Crypto.timingSafeEqual _ _) as [[|] |] eqn:E; try discriminate.
    apply timingSafeEqual_true, Buffer_from_inj in E. now rewrite E.
  - intros [H | [H | (key' & Ek' & Esig)]].
    + discriminate H.
    + discriminate H.
    + inversion Ek'; subst key'. inversion Esig; subst sig.
      now rewrite timingSafeEqual_refl.
Qed.

End HookCoverage.

(** ** Edges of the handshake *)

Section HandshakeCoverage.

Context {World : Type}.
Variable env : Env.

Lemma get_webhook_response (q : list (string * value)) (hs : list (string * string))
    (raw : option Crypto.Buffer) (b : value) (w : World) :
  response (snd (get_webhook env (mkRequest (VObj q) hs raw b) (fresh w)))
  = if strict_eq (own (VObj q) "hub.mode") (VStr "subscribe")
       && strict_eq (own (VObj q) "hub.verify_token") (of_env (VERIFY_TOKEN env))
    then Some (mkResponse 200 (Send (own (VObj q) "hub.challenge")))
    else Some (mkResponse 403 (StatusText "Forbidden")).
Proof.
  unfold get_webhook. cbn.
  destruct (strict_eq _ (VStr "subscribe") && strict_eq _ (of_env (VERIFY_TOKEN env)));
    reflexivity.
Qed.

(** X14: a server that runs without VERIFY_TOKEN accepts a subscribe handshake
    exactly when the request carries no hub.verify_token at all: every
    handshake that presents a token, whatever it is, is refused. *)
Theorem handshake_without_configured_token (q : list (string * value))
    (hs : list (string * string)) (raw : option Crypto.Buffer) (b : value) (w : World) :
  VERIFY_TOKEN env = None ->
  own (VObj q) "hub.mode" = VStr "subscribe" ->
  let final := snd (get_webhook env (mkRequest (VObj q) hs raw b) (fresh w)) in
  (lookup "hub.verify_token" q = None ->
   response final = Some (mkResponse 200 (Send (own (VObj q) "hub.challenge"))))
  /\ (forall presented : string,
         lookup "hub.verify_token" q = Some (VStr presented) ->
         response final = Some (mkResponse 403 (StatusText "Forbidden"))).
Proof.
  intros Hv Hm. cbv zeta. rewrite get_webhook_response, Hm, Hv. cbn [own of_env].
  split.
  - intros ->. reflexivity.
  - intros presented ->. reflexivity.
Qed.

(** X15: a hub.mode or hub.verify_token that the query parser delivers as an
    array or an object (a repeated or bracketed parameter) is always refused,
    whatever it contains and whatever the configuration. *)
Theorem handshake_refuses_structured_parameters (q : list (string * value))
    (hs : list (string * string)) (raw : option Crypto.Buffer) (b : value) (w : World) :
  (exists k, (k = "hub.mode"%string \/ k = "hub.verify_token"%string)
             /\ ((exists items, lookup k q = Some (VArr items))
                 \/ (exists fields, lookup k q = Some (VObj fields)))) ->
  response (snd (get_webhook env (mkRequest (VObj q) hs raw b) (fresh w)))
  = Some (mkResponse 403 (StatusText "Forbidden")).
Proof.
  intros (k & Hk & Hshape). rewrite get_webhook_response. cbn [own].
  destruct Hk as [-> | ->]; destruct Hshape as [(x & ->) | (x & ->)]; cbn [strict_eq andb];
    try reflexivity;
    destruct (strict_eq _ (VStr "subscribe")); reflexivity.
Qed.

End HandshakeCoverage.

(** ** The further properties on concrete runs *)

Lemma replyable_events_answered_in_order_witness :
  let entries := [VObj [("messaging", VArr [sample_hello; sample_receipt])];
                  VObj [("standby", VArr [sample_photo])]] in
  let req := mkRequest (VObj []) [] None (VObj [("entry", VArr entries)]) in
  sent (snd (post_webhook scripted sample_env req (fresh [Rejected VNull])))
  = [send_call sample_env (VStr "U1")
       (VStr ("Thanks for messaging us! You said: " ++ dquote ++ "hi" ++ dquote));
     send_call sample_env (VStr "U3")
       (VStr ("Thanks for messaging us! You said: " ++ dquote ++ "(no text)" ++ dquote))].
Proof.
  cbv zeta.
  exact (replyable_events_answered_in_order scripted sample_env
           (mkRequest (VObj []) [] None
              (VObj [("entry",
                      VArr [VObj [("messaging", VArr [sample_hello; sample_receipt])];
                            VObj [("standby", VArr [sample_photo])]])]))
           [Rejected VNull]
           [("entry",
             VArr [VObj [("messaging", VArr [sample_hello; sample_receipt])];
                   VObj [("standby", VArr [sample_photo])]])]
           [VObj [("messaging", VArr [sample_hello; sample_receipt])];
            VObj [("standby", VArr [sample_photo])]]
           eq_refl eq_refl eq_refl eq_refl).
Defined.

Lemma malformed_entry_drops_the_rest_witness :
  let entries := [VObj [("messaging", VArr [sample_hello])];
                  VObj [("messaging", VArr [sample_photo; sample_unprintable; sample_hello])];
                  VObj [("messaging", VArr [sample_hello])]] in
  let req := mkRequest (VObj []) [] None (VObj [("entry", VArr entries)]) in
  sent (snd (post_webhook scripted sample_env req (fresh [])))
  = [send_call sample_env (VStr "U1")
       (VStr ("Thanks for messaging us! You said: " ++ dquote ++ "hi" ++ dquote));
     send_call sample_env (VStr "U3")
       (VStr ("Thanks for messaging us! You said: " ++ dquote ++ "(no text)" ++ dquote))]
  /\ response (snd (post_webhook scripted sample_env req (fresh [])))
     = Some (mkResponse 200 (StatusText "OK")).
Proof.
  cbv zeta.
  exact (malformed_entry_drops_the_rest scripted sample_env
           (mkRequest (VObj []) [] None
              (VObj [("entry",
                      VArr [VObj [("messaging", VArr [sample_hello])];
                            VObj [("messaging",
                                   VArr [sample_photo; sample_unprintable; sample_hello])];
                            VObj [("messaging", VArr [sample_hello])]])]))
           []
           [("entry",
             VArr [VObj [("messaging", VArr [sample_hello])];
                   VObj [("messaging",
                          VArr [sample_photo; sample_unprintable; sample_hello])];
                   VObj [("messaging", VArr [sample_hello])]])]
           [VObj [("messaging", VArr [sample_hello])]]
           [VObj [("messaging", VArr [sample_hello])]]
           (VObj [("messaging", VArr [sample_photo; sample_unprintable; sample_hello])])
           eq_refl eq_refl eq_refl eq_refl eq_refl).
Defined.

Lemma nullish_body_escapes_witness :
  let env := mkEnv (Some "TOKEN") (Some "vt") (Some "s3cret") in
  let req := mkRequest (VObj []) [] None VUndef in
  response (snd (post_webhook scripted env req (fresh [])))  = None.
Proof.
  cbv zeta.
  apply (nullish_body_escapes scripted (mkEnv (Some "TOKEN") (Some "vt") (Some "s3cret"))
           (mkRequest (VObj []) [] None VUndef) [] eq_refl eq_refl).
Defined.


Lemma getIGUserId_stops_at_identity_witness :
  let env := mkEnv (Some "TOKEN") (Some "vt") None in
  let refusal := VObj [("response", VObj [("status", VNum "401")])] in
  fst (getIGUserId scripted env (fresh [Rejected refusal; Fulfilled (VObj [])]))
  = inr (AxiosError refusal)
  /\ List.length (sent (snd (getIGUserId scripted env
                               (fresh [Rejected refusal; Fulfilled (VObj [])])))) = 1%nat.
Proof.
  cbv zeta.
  rewrite (proj1 (getIGUserId_stops_at_identity scripted
                    (mkEnv (Some "TOKEN") (Some "vt") None)
                    (fresh [Rejected (VObj [("response", VObj [("status", VNum "401")])]);
                            Fulfilled (VObj [])])
                    [Fulfilled (VObj [])])
             (VObj [("response", VObj [("status", VNum "401")])]) eq_refl).
  split; reflexivity.
Defined.


Lemma reply_failure_without_detail_witness :
  let env := mkEnv (Some "TOKEN") (Some "vt") None in
  let gateway := VObj [("response", VObj [("status", VNum "502");
                                          ("data", VStr "Bad Gateway")])] in
  fst (tryReplyInstagram scripted env (VStr "U1") (VStr "hello") (fresh [Rejected gateway]))
  = inl (VObj [("ok", VBool false);
               ("error", VObj [("status", VNum "502");
                               ("code", VUndef);
                               ("subcode", VUndef);
                               ("message", VUndef);
                               ("type", VUndef)])]).
Proof.
  cbv zeta.
  apply (reply_failure_without_detail scripted (mkEnv (Some "TOKEN") (Some "vt") None)
           (VStr "U1") (VStr "hello")
           (fresh [Rejected (VObj [("response", VObj [("status", VNum "502");
                                                      ("data", VStr "Bad Gateway")])])])
           (VObj [("response", VObj [("status", VNum "502"); ("data", VStr "Bad Gateway")])])
           eq_refl).
  right. intros fields. discriminate.
Defined.

Lemma verification_decided_by_saved_body_witness :
  let env := mkEnv (Some "TOKEN") (Some "vt") (Some "s3cret") in
  let buf := Crypto.Buffer_from "{}" in
  let req := mkRequest (VObj [])
                       [("x-hub-signature-256", expected_signature "s3cret" buf)]
                       None (VObj []) in
  verifyMetaSignature env (rawBodySaver req buf) = true.
Proof.
  cbv zeta.
  apply (proj2 (verification_decided_by_saved_body
                  (mkEnv (Some "TOKEN") (Some "vt") (Some "s3cret"))
                  (mkRequest (VObj [])
                     [("x-hub-signature-256",
                       expected_signature "s3cret" (Crypto.Buffer_from "{}"))]
                     None (VObj []))
                  (Crypto.Buffer_from "{}"))).
  right. right. exists "s3cret"%string. split; reflexivity.
Defined.

Lemma handshake_without_configured_token_witness :
  let env := mkEnv (Some "TOKEN") None None in
  response (snd (get_webhook env
                   (mkRequest (VObj [("hub.mode", VStr "subscribe");
                                     ("hub.challenge", VStr "c0")]) [] None VUndef)
                   (fresh tt)))
  = Some (mkResponse 200 (Send (VStr "c0"))).
Proof.
  cbv zeta.
  apply (proj1 (handshake_without_configured_token (mkEnv (Some "TOKEN") None None)
                  [("hub.mode", VStr "subscribe"); ("hub.challenge", VStr "c0")]
                  [] None VUndef tt eq_refl eq_refl)).
  reflexivity.
Defined.

Lemma handshake_refuses_structured_parameters_witness :
  let env := mkEnv (Some "TOKEN") (Some "vt") None in
  response (snd (get_webhook env
                   (mkRequest (VObj [("hub.mode", VStr "subscribe");
                                     ("hub.verify_token", VArr [VStr "vt"; VStr "vt"]);
                                     ("hub.challenge", VStr "c0")]) [] None VUndef)
                   (fresh tt)))
  = Some (mkResponse 403 (StatusText "Forbidden")).
Proof.
  cbv zeta.
  apply (handshake_refuses_structured_parameters (mkEnv (Some "TOKEN") (Some "vt") None)
           [("hub.mode", VStr "subscribe");
            ("hub.verify_token", VArr [VStr "vt"; VStr "vt"]);
            ("hub.challenge", VStr "c0")] [] None VUndef tt).
  exists "hub.verify_token"%string. split; [now right |].
  left. eexists. reflexivity.
Defined.
